(** * The chat route of the perfume assistant: POST (append), DELETE, the
    embedding client, prompt assembly and usage reconciliation.

    Shallow embedding of [app/(chat)/api/chat/route.ts] and
    [lib/ai/embeddings.ts].  External collaborators (authentication, the
    query layer, the model provider, the token catalogue) are an interface
    whose operations may throw; the handler is written in a state and
    exception monad over the store, the console and the outgoing stream. *)

From stdpp Require Import gmap strings list pretty.

Open Scope string_scope.
Open Scope Z_scope.

Set Warnings "-register-all".

(** ** JavaScript values *)

Module Js.

(** The values a catalogue row, a JSON body or a usage object can hold.
    Numbers are the integers (counts, HTTP statuses, whole ratings) in the
    range where JavaScript prints them in plain decimal. *)
Inductive JsVal : Type :=
| JUndefined
| JNull
| JBool (b : bool)
| JNum (n : Z)
| JStr (s : string)
| JArr (items : list JsVal)
| JObj (props : list (string * JsVal)).

(** [v ? a : b] and [!v]: ToBoolean. *)
Definition truthy (v : JsVal) : bool :=
  match v with
  | JUndefined | JNull => false
  | JBool b => b
  | JNum n => negb (n =? 0)
  | JStr s => negb (String.eqb s "")
  | JArr _ | JObj _ => true
  end.

Definition isNullish (v : JsVal) : bool :=
  match v with
  | JUndefined | JNull => true
  | _ => false
  end.

(** [`${v}`]: ToString.  An array prints its elements joined by a comma,
    null and undefined elements as the empty string. *)
Fixpoint toString (v : JsVal) : string :=
  match v with
  | JUndefined => "undefined"
  | JNull => "null"
  | JBool true => "true"
  | JBool false => "false"
  | JNum n => pretty n
  | JStr s => s
  | JArr items =>
      String.concat ","
        (List.map (fun x => if isNullish x then "" else toString x) items)
  | JObj _ => "[object Object]"
  end.

(** [arr.join(sep)] *)
Definition join (sep : string) (items : list JsVal) : string :=
  String.concat sep
    (List.map (fun x => if isNullish x then "" else toString x) items).

Definition dquote : string := String (Ascii.ascii_of_nat 34) EmptyString.
Definition backslash : string := String (Ascii.ascii_of_nat 92) EmptyString.

Definition hexDigit (n : nat) : string :=
  String (Ascii.ascii_of_nat (if (n <? 10)%nat then 48 + n else 87 + n))
         EmptyString.

(** One code unit of a JSON string literal. *)
Definition quoteChar (c : Ascii.ascii) : string :=
  let n := Ascii.nat_of_ascii c in
  if (n =? 34)%nat then backslash +:+ dquote
  else if (n =? 92)%nat then backslash +:+ backslash
  else if (n =? 8)%nat then backslash +:+ "b"
  else if (n =? 12)%nat then backslash +:+ "f"
  else if (n =? 10)%nat then backslash +:+ "n"
  else if (n =? 13)%nat then backslash +:+ "r"
  else if (n =? 9)%nat then backslash +:+ "t"
  else if (n <? 32)%nat then
    backslash +:+ "u00" +:+ hexDigit (n / 16) +:+ hexDigit (n mod 16)
  else String c EmptyString.

Fixpoint quoteBody (s : string) : string :=
  match s with
  | EmptyString => EmptyString
  | String c rest => quoteChar c +:+ quoteBody rest
  end.

Definition quoteJSONString (s : string) : string :=
  dquote +:+ quoteBody s +:+ dquote.

(** [JSON.stringify(v)]; [None] is the JavaScript [undefined] it returns
    for an undefined argument.  Inside an array undefined prints as null,
    inside an object the property is left out. *)
Fixpoint JSON_stringify (v : JsVal) : option string :=
  match v with
  | JUndefined => None
  | JNull => Some "null"
  | JBool true => Some "true"
  | JBool false => Some "false"
  | JNum n => Some (pretty n)
  | JStr s => Some (quoteJSONString s)
  | JArr items =>
      Some ("[" +:+
            String.concat ","
              (List.map (fun x => default "null" (JSON_stringify x)) items)
            +:+ "]")
  | JObj props =>
      Some ("{" +:+
            String.concat ","
              (omap (fun kv =>
                       match JSON_stringify (snd kv) with
                       | Some s => Some (quoteJSONString (fst kv) +:+ ":" +:+ s)
                       | None => None
                       end) props)
            +:+ "}")
  end.

(** [`${JSON.stringify(v)}`] *)
Definition stringified (v : JsVal) : string :=
  default "undefined" (JSON_stringify v).

End Js.
Export Js.

(** ** Prompt assembly: the [execute] callback of POST, lines 183 to 223 *)

Module Prompt.

(** A row returned by [searchPerfumesByEmbedding]. *)
Record Perfume : Type := mkPerfume {
  perfume_name : JsVal;
  brand : JsVal;
  description : JsVal;
  rating : JsVal;
  rating_count : JsVal;
  notes : JsVal;
  season : JsVal;
  gender : JsVal;
  longevity : JsVal;
  sillage : JsVal;
  timeOfDay : JsVal;
  valueForMoney : JsVal;
  pros : JsVal;
  cons : JsVal;
  similarPerfumes : JsVal
}.

Definition nl : string := String (Ascii.ascii_of_nat 10) EmptyString.

(** [Array.isArray(v) ? v.join(", ") : JSON.stringify(v)], the array test
    done by the match. *)
Definition listOrJson (v : JsVal) : string :=
  match v with
  | JArr items => join ", " items
  | _ => stringified v
  end.

(** [v ? text : ""] *)
Definition whenTruthy (v : JsVal) (text : string) : string :=
  if truthy v then text else "".

(** The arrow function mapped over the rows. *)
Definition renderPerfume (p : Perfume) : string :=
  ("**" +:+ toString (perfume_name p) +:+ "**" +:+
     whenTruthy (brand p) (" (" +:+ toString (brand p) +:+ ")") +:+ nl) +:+
  whenTruthy (description p)
    ("Opis: " +:+ toString (description p) +:+ nl) +:+
  whenTruthy (rating p)
    ("⭐ Ocena: " +:+ toString (rating p) +:+ "/5" +:+
       whenTruthy (rating_count p)
         (" (" +:+ toString (rating_count p) +:+ " opinii)") +:+ nl) +:+
  whenTruthy (notes p)
    ("Nuty zapachowe: " +:+ listOrJson (notes p) +:+ nl) +:+
  whenTruthy (season p) ("Sezon: " +:+ listOrJson (season p) +:+ nl) +:+
  whenTruthy (gender p) ("Dla: " +:+ listOrJson (gender p) +:+ nl) +:+
  whenTruthy (longevity p)
    ("Trwałość: " +:+ stringified (longevity p) +:+ nl) +:+
  whenTruthy (sillage p)
    ("Sillage: " +:+ stringified (sillage p) +:+ nl) +:+
  whenTruthy (timeOfDay p)
    ("Pora dnia: " +:+ listOrJson (timeOfDay p) +:+ nl) +:+
  whenTruthy (valueForMoney p)
    ("Stosunek jakości do ceny: " +:+ stringified (valueForMoney p) +:+ nl) +:+
  whenTruthy (pros p) ("Zalety: " +:+ listOrJson (pros p) +:+ nl) +:+
  whenTruthy (cons p) ("Wady: " +:+ listOrJson (cons p) +:+ nl) +:+
  whenTruthy (similarPerfumes p)
    ("Podobne perfumy: " +:+ listOrJson (similarPerfumes p) +:+ nl).

Definition separator : string := nl +:+ nl +:+ "---" +:+ nl +:+ nl.

Definition perfumesContext (perfumes : list Perfume) : string :=
  if (0 <? length perfumes)%nat
  then String.concat separator (List.map renderPerfume perfumes)
  else "".

(** The fixed text before the retrieved-context block. *)
Definition templateHead : string :=
"Jesteś ekspertem w dziedzinie perfum - profesjonalnym asystentem perfumowym z głęboką wiedzą o zapachach, nutach zapachowych, kompozycjach i trendach w świecie perfum.

Twoje zadania:
1. Pomagasz użytkownikom znaleźć idealne perfumy na podstawie ich preferencji, okazji, budżetu i stylu życia
2. Wyjaśniasz charakterystykę zapachów, nuty zapachowe i kompozycje
3. Rekomendujesz perfumy na podstawie podobieństwa, okazji, sezonu i innych kryteriów
4. Porównujesz perfumy i pomagasz w wyborze
5. Udzielasz profesjonalnych porad dotyczących aplikacji, przechowywania i pielęgnacji perfum

Styl komunikacji:
- Bądź profesjonalny, ale przyjazny i przystępny
- Używaj terminologii perfumeryjnej, ale wyjaśniaj trudne pojęcia
- Bądź entuzjastyczny, ale obiektywny
- Zawsze odpowiadaj po polsku
- Formatuj odpowiedzi w sposób czytelny, używając akapitów i list gdy to pomocne

".

Definition foundIntro : string :=
  "Znalezione perfumy w bazie danych:" +:+ nl +:+ nl.

Definition foundOutro : string :=
  nl +:+ nl +:+
  "Użyj tych informacji, aby udzielić szczegółowej i pomocnej odpowiedzi. Jeśli użytkownik pyta o konkretne perfumy, skup się na tych znalezionych w bazie. Jeśli pyta ogólnie, możesz użyć znalezionych perfum jako przykładów lub punktu wyjścia.".

Definition fallbackSentence : string :=
  "Nie znaleziono perfum pasujących do zapytania w bazie danych. Odpowiedz pomocnie, sugerując inne podejście do wyszukiwania lub zadaj pytania pomocnicze, aby lepiej zrozumieć potrzeby użytkownika.".

(** The fixed text after the retrieved-context block. *)
Definition templateTail : string :=
"

Pamiętaj: Zawsze odpowiadaj po polsku i bądź pomocny, profesjonalny i entuzjastyczny w temacie perfum.".

Definition systemPrompt (perfumes : list Perfume) : string :=
  templateHead +:+
  (if (0 <? length perfumes)%nat
   then foundIntro +:+ perfumesContext perfumes +:+ foundOutro
   else fallbackSentence) +:+
  templateTail.

End Prompt.
Export Prompt.

(** ** Exceptions, the world and the handler monad *)

Module Eff.

(** What a [throw] carries: the application's own error class (its code is
    [type:surface]), a plain [Error], or any other thrown value. *)
Inductive Exn : Type :=
| ChatSDKError (code : string) (message : string)
| Error (message : string)
| ThrownValue (v : JsVal).

(** [error instanceof Error ? error.message : String(error)] *)
Definition exnMessage (e : Exn) : string :=
  match e with
  | ChatSDKError _ m => m
  | Error m => m
  | ThrownValue v => toString v
  end.

Inductive Outcome (A : Type) : Type :=
| Returned (a : A)
| Thrown (e : Exn).
Arguments Returned {A} a.
Arguments Thrown {A} e.

(** [haystack.includes(needle)] *)
Fixpoint includes (needle haystack : string) : bool :=
  String.prefix needle haystack ||
  match haystack with
  | EmptyString => false
  | String _ rest => includes needle rest
  end.

(** Rows and messages of the conversation store. *)
Record Chat : Type := mkChat {
  chat_id : string;
  chat_userId : string;
  chat_title : string;
  chat_visibility : string
}.

Record ChatMessage : Type := mkChatMessage {
  msg_id : string;
  msg_role : string;
  msg_parts : list JsVal
}.

Record DBMessage : Type := mkDBMessage {
  db_chatId : string;
  db_id : string;
  db_role : string;
  db_parts : list JsVal;
  db_attachments : list JsVal;
  db_createdAt : Z
}.

(** A usage object: token counts and, once enriched, cost and model data. *)
Abbreviation Usage := (gmap string JsVal).

Record FetchRequest : Type := mkFetchRequest {
  fr_url : string;
  fr_method : string;
  fr_headers : list (string * string);
  fr_body : string
}.

(** The part of a fetch [Response] the embedding client reads; [resp_json]
    is what [response.json()] settles to. *)
Record HttpResponse : Type := mkHttpResponse {
  resp_ok : bool;
  resp_status : Z;
  resp_statusText : string;
  resp_json : Outcome JsVal
}.

(** Chunks written to the UI message stream. *)
Inductive Chunk : Type :=
| TextDelta (delta : string) (id : string)
| DataUsage (data : Usage)
| Finish
| ModelChunk (payload : JsVal).

(** Calls that reach beyond the process: writes of the query layer and
    HTTP requests, in the order they were made. *)
Inductive Call : Type :=
| CallSaveChat (c : Chat)
| CallSaveMessages (ms : list DBMessage)
| CallCreateStreamId (streamId chatId : string)
| CallDeleteChatById (id : string)
| CallUpdateChatLastContextById (chatId : string) (context : Usage)
| CallFetch (r : FetchRequest).

Record LogLine : Type := mkLogLine {
  log_level : string;
  log_text : string;
  log_detail : option Exn
}.

(** The resumable-stream context and the module variable that caches it. *)
Record ResumableStreamContext : Type := mkCtx { ctx_name : string }.

Record World (DB : Type) : Type := mkWorld {
  db : DB;
  calls : list Call;
  console : list LogLine;
  dataStream : list Chunk;
  finalMergedUsage : option Usage;
  globalStreamContext : option ResumableStreamContext;
  uuidsDrawn : nat;
  clock : Z
}.
Arguments mkWorld {DB}.
Arguments db {DB}.
Arguments calls {DB}.
Arguments console {DB}.
Arguments dataStream {DB}.
Arguments finalMergedUsage {DB}.
Arguments globalStreamContext {DB}.
Arguments uuidsDrawn {DB}.
Arguments clock {DB}.

(** An async function body: it runs on a world and either returns or
    throws, leaving a world behind in both cases. *)
Definition M (DB : Type) (A : Type) : Type := World DB -> World DB * Outcome A.

Section Monad.
Context {DB : Type}.

Definition ret {A} (a : A) : M DB A := fun w => (w, Returned a).

Definition bind {A B} (m : M DB A) (k : A -> M DB B) : M DB B :=
  fun w =>
    match m w with
    | (w', Returned a) => k a w'
    | (w', Thrown e) => (w', Thrown e)
    end.

Definition throw {A} (e : Exn) : M DB A := fun w => (w, Thrown e).

(** [try { body } catch (e) { handler }] *)
Definition tryCatch {A} (body : M DB A) (handler : Exn -> M DB A) : M DB A :=
  fun w =>
    match body w with
    | (w', Returned a) => (w', Returned a)
    | (w', Thrown e) => handler e w'
    end.

(** Await a value that is already settled. *)
Definition settle {A} (o : Outcome A) : M DB A := fun w => (w, o).

(** A read of the store. *)
Definition query {A} (q : DB -> Outcome A) : M DB A :=
  fun w => (w, q (db w)).

(** A write of the store, entered in the call trace before it runs. *)
Definition command {A} (c : Call) (op : DB -> DB * Outcome A) : M DB A :=
  fun w =>
    let '(d, o) := op (db w) in
    (mkWorld d (calls w ++ [c]) (console w) (dataStream w)
             (finalMergedUsage w) (globalStreamContext w)
             (uuidsDrawn w) (clock w), o).

Definition recordCall (c : Call) : M DB unit :=
  fun w =>
    (mkWorld (db w) (calls w ++ [c]) (console w) (dataStream w)
             (finalMergedUsage w) (globalStreamContext w)
             (uuidsDrawn w) (clock w), Returned tt).

Definition consoleLog (level text : string) (detail : option Exn) : M DB unit :=
  fun w =>
    (mkWorld (db w) (calls w) (console w ++ [mkLogLine level text detail])
             (dataStream w) (finalMergedUsage w) (globalStreamContext w)
             (uuidsDrawn w) (clock w), Returned tt).

(** [dataStream.write(chunk)] *)
Definition write (c : Chunk) : M DB unit :=
  fun w =>
    (mkWorld (db w) (calls w) (console w) (dataStream w ++ [c])
             (finalMergedUsage w) (globalStreamContext w)
             (uuidsDrawn w) (clock w), Returned tt).

Definition setFinalMergedUsage (u : option Usage) : M DB unit :=
  fun w =>
    (mkWorld (db w) (calls w) (console w) (dataStream w) u
             (globalStreamContext w) (uuidsDrawn w) (clock w), Returned tt).

Definition setGlobalStreamContext (c : option ResumableStreamContext) : M DB unit :=
  fun w =>
    (mkWorld (db w) (calls w) (console w) (dataStream w)
             (finalMergedUsage w) c (uuidsDrawn w) (clock w), Returned tt).

Definition readWorld {A} (f : World DB -> A) : M DB A :=
  fun w => (w, Returned (f w)).

(** [generateUUID()], drawn from the supply [uuid]. *)
Definition drawUUID (uuid : nat -> string) : M DB string :=
  fun w =>
    (mkWorld (db w) (calls w) (console w) (dataStream w)
             (finalMergedUsage w) (globalStreamContext w)
             (S (uuidsDrawn w)) (clock w), Returned (uuid (uuidsDrawn w))).
End Monad.

#[global] Instance M_ret {DB} : MRet (M DB) := @ret DB.
#[global] Instance M_bind {DB} : MBind (M DB) := fun A B k m => bind m k.

End Eff.
Export Eff.

(** ** The collaborators *)

Module Collab.

Record User : Type := mkUser {
  user_id : string;
  user_type : string
}.

(** What [auth()] resolves to: null, or a session that may lack a user. *)
Record Session : Type := mkSession { session_user : option User }.

Record LanguageModel : Type := mkLanguageModel { modelId : JsVal }.

(** [process.env] *)
Record ProcessEnv : Type := mkProcessEnv {
  OPENAI_API_KEY : option string;
  REDIS_URL : option string
}.

(** The validated body of a POST, [PostRequestBody]. *)
Record PostRequestBody : Type := mkPostRequestBody {
  body_id : string;
  body_message : ChatMessage;
  body_selectedChatModel : string;
  body_selectedVisibilityType : string
}.

(** A request as the two handlers read it: [parsedBody] is [None] when
    [request.json()] or the schema's [parse] throws, [searchId] is
    [searchParams.get("id")]. *)
Record Request : Type := mkRequest {
  parsedBody : option PostRequestBody;
  searchId : option string;
  vercelId : option string
}.

(** Everything the route imports and does not define.  Reads of the store
    see it and leave it alone, writes return the store they leave behind,
    and every operation may throw.  [entitlement] is the
    [maxMessagesPerDay] column of [entitlementsByUserType]; [streamText]
    gives the chunks of the completion and, when the generation finishes,
    the usage handed to its [onFinish]; [responseMessages] is the message
    list the stream hands to its own [onFinish]. *)
Class Collaborators (DB : Type) : Type := {
  env : ProcessEnv;
  auth : Outcome (option Session);
  entitlement : string -> Z;
  getMessageCountByUserId : string -> Z -> DB -> Outcome Z;
  getChatById : string -> DB -> Outcome (option Chat);
  getMessagesByChatId : string -> DB -> Outcome (list DBMessage);
  saveChat : Chat -> DB -> DB * Outcome unit;
  saveMessages : list DBMessage -> DB -> DB * Outcome unit;
  createStreamId : string -> string -> DB -> DB * Outcome unit;
  deleteChatById : string -> DB -> DB * Outcome Chat;
  updateChatLastContextById : string -> Usage -> DB -> DB * Outcome unit;
  searchPerfumesByEmbedding : JsVal -> Z -> DB -> Outcome (list Perfume);
  generateTitleFromUserMessage : ChatMessage -> Outcome string;
  convertToUIMessages : list DBMessage -> list ChatMessage;
  getTextFromMessage : ChatMessage -> string;
  generateUUID : nat -> string;
  fetch : FetchRequest -> Outcome HttpResponse;
  languageModel : string -> Outcome LanguageModel;
  streamText : LanguageModel -> string -> string -> list Chunk * option Usage;
  responseMessages : list Chunk -> list ChatMessage;
  fetchModels : Outcome JsVal;
  getUsage : JsVal -> Usage -> JsVal -> Outcome Usage;
  createResumableStreamContext : ProcessEnv -> Outcome ResumableStreamContext
}.

End Collab.
Export Collab.

(** ** lib/ai/embeddings.ts *)

Module Embeddings.
Section WithCollaborators.
Context {DB : Type} `{Collaborators DB}.

(** [v.name] on a value that may be anything; null and undefined throw
    a TypeError. *)
Definition getProp (v : JsVal) (name : string) : Outcome JsVal :=
  match v with
  | JUndefined | JNull =>
      Thrown (Error ("Cannot read properties of " +:+ toString v +:+
                     " (reading '" +:+ name +:+ "')"))
  | JObj props =>
      Returned (default JUndefined (snd <$> List.find (fun kv => String.eqb (fst kv) name) props))
  | _ => Returned JUndefined
  end.

(** [v?.[0]] *)
Definition optFirst (v : JsVal) : JsVal :=
  match v with
  | JUndefined | JNull => JUndefined
  | JArr items => default JUndefined (head items)
  | JStr (String c _) => JStr (String c EmptyString)
  | JObj props =>
      default JUndefined (snd <$> List.find (fun kv => String.eqb (fst kv) "0") props)
  | _ => JUndefined
  end.

(** [v?.name] *)
Definition optProp (v : JsVal) (name : string) : JsVal :=
  match v with
  | JObj props =>
      default JUndefined (snd <$> List.find (fun kv => String.eqb (fst kv) name) props)
  | _ => JUndefined
  end.

Definition embeddingsRequest (apiKey text : string) : FetchRequest :=
  {| fr_url := "https://api.openai.com/v1/embeddings";
     fr_method := "POST";
     fr_headers := [("Content-Type", "application/json");
                    ("Authorization", "Bearer " +:+ apiKey)];
     fr_body := stringified (JObj [("model", JStr "text-embedding-3-small");
                                   ("input", JStr text)]) |}.

(** The message of the error thrown for a response that is not ok:
    [response.json().catch(() => ({}))] supplies the detail. *)
Definition apiErrorMessage (response : HttpResponse) : string :=
  let error := match resp_json response with
               | Returned v => v
               | Thrown _ => JObj []
               end in
  "OpenAI API error: " +:+ pretty (resp_status response) +:+ " " +:+
  resp_statusText response +:+ " - " +:+ stringified error.

Definition wrapped (e : Exn) : Exn :=
  Error ("Failed to generate embedding: " +:+ exnMessage e).

Definition generateEmbedding (text : string) : M DB JsVal :=
  tryCatch
    (match OPENAI_API_KEY env with
     | None | Some "" => throw (Error "OPENAI_API_KEY is not set")
     | Some apiKey =>
         recordCall (CallFetch (embeddingsRequest apiKey text));;
         response ← settle (fetch (embeddingsRequest apiKey text));
         if negb (resp_ok response)
         then throw (Error (apiErrorMessage response))
         else
           data ← settle (resp_json response);
           inner ← settle (getProp data "data");
           let embedding := optProp (optFirst inner) "embedding" in
           if negb (truthy embedding)
           then throw (Error "Failed to generate embedding: no embedding in response")
           else mret embedding
     end)
    (fun error => throw (wrapped error)).

End WithCollaborators.
End Embeddings.
Export Embeddings.

(** ** app/(chat)/api/chat/route.ts *)

Module Route.

(** What [execute] and the two [onFinish] callbacks close over. *)
Record UIStream : Type := mkUIStream {
  us_chatId : string;
  us_selectedChatModel : string;
  us_userMessageText : string
}.

(** The body of a streamed response.  [ResumableStream] is the body the
    disabled lines 319 to 327 would build through the stream context. *)
Inductive Body : Type :=
| PlainStream (s : UIStream)
| ResumableStream (streamId : string) (s : UIStream).

Inductive Response : Type :=
| ErrorResponse (code : string)
| JsonResponse (status : Z) (payload : Chat)
| StreamResponse (b : Body).

Definition apology : string :=
  "Przepraszam, wystąpił błąd podczas wyszukiwania perfum. Spróbuj ponownie.".

Section WithCollaborators.
Context {DB : Type} `{Collaborators DB}.

(** [getTokenlensCatalog]; the 24 hour cache around it is left out, so
    every call fetches. *)
Definition getTokenlensCatalog : M DB JsVal :=
  tryCatch
    (settle fetchModels)
    (fun err =>
       consoleLog "warn" "TokenLens: catalog fetch failed, using default catalog"
                  (Some err);;
       mret JUndefined).

(** [error.message.includes("REDIS_URL")] of the catch clause.  A string
    message is searched, an array message is asked for the element
    "REDIS_URL", a missing message has no properties to read, and any
    other message has no [includes] to call. *)
Definition mentionsRedisUrl (error : Exn) : Outcome bool :=
  match error with
  | ChatSDKError _ m | Error m => Returned (includes "REDIS_URL" m)
  | ThrownValue v =>
      match getProp v "message" with
      | Returned (JStr m) => Returned (includes "REDIS_URL" m)
      | Returned (JArr items) =>
          Returned (existsb (fun x => match x with
                                      | JStr m => String.eqb m "REDIS_URL"
                                      | _ => false
                                      end) items)
      | Returned (JUndefined as other) | Returned (JNull as other) =>
          Thrown (Error ("Cannot read properties of " +:+ toString other +:+
                         " (reading 'includes')"))
      | Returned _ => Thrown (Error "error.message.includes is not a function")
      | Thrown e => Thrown e
      end
  end.

Definition getStreamContext : M DB (option ResumableStreamContext) :=
  current ← readWorld globalStreamContext;
  match current with
  | Some _ => mret tt
  | None =>
      tryCatch
        (ctx ← settle (createResumableStreamContext env);
         setGlobalStreamContext (Some ctx))
        (fun error =>
           missing ← settle (mentionsRedisUrl error);
           if (missing : bool)
           then consoleLog "log"
                  " > Resumable streams are disabled due to missing REDIS_URL" None
           else consoleLog "error" "" (Some error))
  end;;
  readWorld globalStreamContext.

(** [onFinish] of [streamText]: the usage reconciler. *)
Definition usageOnFinish (s : UIStream) (usage : Usage) : M DB unit :=
  tryCatch
    (providers ← getTokenlensCatalog;
     model ← settle (languageModel (us_selectedChatModel s));
     if negb (truthy (modelId model))
     then setFinalMergedUsage (Some usage);; write (DataUsage usage)
     else if negb (truthy providers)
     then setFinalMergedUsage (Some usage);; write (DataUsage usage)
     else
       summary ← settle (getUsage (modelId model) usage providers);
       let merged : Usage := <["modelId" := modelId model]> (summary ∪ usage) in
       setFinalMergedUsage (Some merged);; write (DataUsage merged))
    (fun err =>
       consoleLog "warn" "TokenLens enrichment failed" (Some err);;
       setFinalMergedUsage (Some usage);;
       write (DataUsage usage)).

(** The three ways the reconciler falls back: the model has no id, the
    catalogue is not available, or a step of the enrichment throws. *)
Definition fallbackTier (s : UIStream) (usage : Usage) : Prop :=
  (exists model, languageModel (us_selectedChatModel s) = Returned model /\
                 truthy (modelId model) = false) \/
  (exists e, fetchModels = Thrown e) \/
  (exists catalog, fetchModels = Returned catalog /\ truthy catalog = false) \/
  (exists e, languageModel (us_selectedChatModel s) = Thrown e) \/
  (exists model catalog e,
      languageModel (us_selectedChatModel s) = Returned model /\
      fetchModels = Returned catalog /\
      getUsage (modelId model) usage catalog = Thrown e).

Fixpoint writeAll (chunks : list Chunk) : M DB unit :=
  match chunks with
  | [] => mret tt
  | c :: rest => write c;; writeAll rest
  end.

(** [execute] of [createUIMessageStream]. *)
Definition execute (s : UIStream) : M DB unit :=
  tryCatch
    (queryEmbedding ← generateEmbedding (us_userMessageText s);
     perfumes ← query (searchPerfumesByEmbedding queryEmbedding 5);
     model ← settle (languageModel (us_selectedChatModel s));
     let result := streamText model (systemPrompt perfumes) (us_userMessageText s) in
     writeAll (fst result);;
     match snd result with
     | Some usage => usageOnFinish s usage
     | None => mret tt
     end)
    (fun error =>
       consoleLog "error" "Error in perfume search:" (Some error);;
       id ← drawUUID generateUUID;
       write (TextDelta apology id);;
       write Finish).

Definition toDBMessage (chatId : string) (createdAt : Z) (m : ChatMessage) : DBMessage :=
  {| db_id := msg_id m;
     db_role := msg_role m;
     db_parts := msg_parts m;
     db_createdAt := createdAt;
     db_attachments := [];
     db_chatId := chatId |}.

(** [onFinish] of [createUIMessageStream]. *)
Definition streamOnFinish (s : UIStream) (messages : list ChatMessage) : M DB unit :=
  now ← readWorld clock;
  let rows := List.map (toDBMessage (us_chatId s) now) messages in
  command (CallSaveMessages rows) (saveMessages rows);;
  usage ← readWorld finalMergedUsage;
  match usage with
  | Some context =>
      tryCatch
        (command (CallUpdateChatLastContextById (us_chatId s) context)
                 (updateChatLastContextById (us_chatId s) context))
        (fun err =>
           consoleLog "warn" "Unable to persist last usage for chat" (Some err))
  | None => mret tt
  end.

(** The stream drained to its end: [execute], then [onFinish] on the
    messages assembled from the chunks. *)
Definition runStream (s : UIStream) : M DB unit :=
  execute s;;
  chunks ← readWorld dataStream;
  streamOnFinish s (responseMessages chunks).

Definition userRow (b : PostRequestBody) (createdAt : Z) : DBMessage :=
  {| db_chatId := body_id b;
     db_id := msg_id (body_message b);
     db_role := "user";
     db_parts := msg_parts (body_message b);
     db_attachments := [];
     db_createdAt := createdAt |}.

(** POST from line 147 on: the chat exists and is the caller's. *)
Definition appendAndStream (b : PostRequestBody) (messagesFromDb : list DBMessage)
  : M DB Response :=
  let uiMessages := (convertToUIMessages messagesFromDb ++ [body_message b])%list in
  now ← readWorld clock;
  command (CallSaveMessages [userRow b now]) (saveMessages [userRow b now]);;
  streamId ← drawUUID generateUUID;
  command (CallCreateStreamId streamId (body_id b))
          (createStreamId streamId (body_id b));;
  setFinalMergedUsage None;;
  let stream := {| us_chatId := body_id b;
                   us_selectedChatModel := body_selectedChatModel b;
                   us_userMessageText := getTextFromMessage (body_message b) |} in
  mret (StreamResponse (PlainStream stream)).

Definition POST (request : Request) : M DB Response :=
  match parsedBody request with
  | None => mret (ErrorResponse "bad_request:api")
  | Some b =>
      tryCatch
        (session ← settle auth;
         match session ≫= session_user with
         | None => mret (ErrorResponse "unauthorized:chat")
         | Some user =>
             messageCount ← query (getMessageCountByUserId (user_id user) 24);
             if entitlement (user_type user) <? messageCount
             then mret (ErrorResponse "rate_limit:chat")
             else
               chat ← query (getChatById (body_id b));
               match chat with
               | Some c =>
                   if negb (String.eqb (chat_userId c) (user_id user))
                   then mret (ErrorResponse "forbidden:chat")
                   else
                     messagesFromDb ← query (getMessagesByChatId (body_id b));
                     appendAndStream b messagesFromDb
               | None =>
                   title ← settle (generateTitleFromUserMessage (body_message b));
                   command
                     (CallSaveChat (mkChat (body_id b) (user_id user) title
                                           (body_selectedVisibilityType b)))
                     (saveChat (mkChat (body_id b) (user_id user) title
                                       (body_selectedVisibilityType b)));;
                   appendAndStream b []
               end
         end)
        (fun error =>
           match error with
           | ChatSDKError code _ => mret (ErrorResponse code)
           | _ =>
               consoleLog "error" "Unhandled error in chat API:" (Some error);;
               mret (ErrorResponse "offline:chat")
           end)
  end.

(** [chat?.userId !== userId] *)
Definition notOwnedBy (chat : option Chat) (userId : string) : bool :=
  match chat with
  | Some c => negb (String.eqb (chat_userId c) userId)
  | None => true
  end.

Definition DELETE (request : Request) : M DB Response :=
  match searchId request with
  | None | Some "" => mret (ErrorResponse "bad_request:api")
  | Some id =>
      session ← settle auth;
      match session ≫= session_user with
      | None => mret (ErrorResponse "unauthorized:chat")
      | Some user =>
          chat ← query (getChatById id);
          if notOwnedBy chat (user_id user)
          then mret (ErrorResponse "forbidden:chat")
          else
            deletedChat ← command (CallDeleteChatById id) (deleteChatById id);
            mret (JsonResponse 200 deletedChat)
      end
  end.

End WithCollaborators.
End Route.
Export Route.

(** ** An in-memory store and scripted collaborators, for running the
    handlers on concrete requests *)

Module Memory.

Record Store : Type := mkStore {
  chats : list Chat;
  messages : list DBMessage;
  streamIds : list (string * string);
  lastContexts : list (string * Usage)
}.

(** What the scripted collaborators answer. *)
Record Scenario : Type := mkScenario {
  sc_env : ProcessEnv;
  sc_auth : Outcome (option Session);
  sc_quota : Z;
  sc_fetch : Outcome HttpResponse;
  sc_search : Outcome (list Perfume);
  sc_saveMessagesFails : bool;
  sc_updateContextFails : bool;
  sc_modelId : JsVal;
  sc_completion : list Chunk * option Usage;
  sc_fetchModels : Outcome JsVal;
  sc_getUsage : Outcome Usage;
  sc_streamContext : Outcome ResumableStreamContext
}.

Definition findChat (id : string) (s : Store) : option Chat :=
  List.find (fun c => String.eqb (chat_id c) id) (chats s).

Definition ownedBy (userId : string) (s : Store) (m : DBMessage) : bool :=
  match findChat (db_chatId m) s with
  | Some c => String.eqb (chat_userId c) userId
  | None => false
  end.

Definition countUserMessages (userId : string) (s : Store) : Z :=
  Z.of_nat (length (List.filter
                      (fun m => String.eqb (db_role m) "user" && ownedBy userId s m)
                      (messages s))).

Definition databaseError : Exn :=
  ChatSDKError "bad_request:database" "An error occurred while executing a database query.".

Definition textOfPart (part : JsVal) : string :=
  match part with
  | JObj [("type", JStr "text"); ("text", JStr t)] => t
  | _ => ""
  end.

#[global] Instance scripted (sc : Scenario) : Collaborators Store := {|
  env := sc_env sc;
  auth := sc_auth sc;
  entitlement := fun _ => sc_quota sc;
  getMessageCountByUserId := fun userId _ s => Returned (countUserMessages userId s);
  getChatById := fun id s => Returned (findChat id s);
  getMessagesByChatId := fun id s =>
    Returned (List.filter (fun m => String.eqb (db_chatId m) id) (messages s));
  saveChat := fun c s =>
    (mkStore (chats s ++ [c]) (messages s) (streamIds s) (lastContexts s), Returned tt);
  saveMessages := fun ms s =>
    if sc_saveMessagesFails sc then (s, Thrown databaseError)
    else (mkStore (chats s) (messages s ++ ms) (streamIds s) (lastContexts s), Returned tt);
  createStreamId := fun streamId chatId s =>
    (mkStore (chats s) (messages s) (streamIds s ++ [(streamId, chatId)]) (lastContexts s),
     Returned tt);
  deleteChatById := fun id s =>
    match findChat id s with
    | Some c =>
        (mkStore (List.filter (fun c' => negb (String.eqb (chat_id c') id)) (chats s))
                 (List.filter (fun m => negb (String.eqb (db_chatId m) id)) (messages s))
                 (List.filter (fun p => negb (String.eqb (snd p) id)) (streamIds s))
                 (lastContexts s),
         Returned c)
    | None => (s, Thrown databaseError)
    end;
  updateChatLastContextById := fun chatId context s =>
    if sc_updateContextFails sc then (s, Thrown databaseError)
    else (mkStore (chats s) (messages s) (streamIds s)
                  (lastContexts s ++ [(chatId, context)]), Returned tt);
  searchPerfumesByEmbedding := fun _ _ _ => sc_search sc;
  generateTitleFromUserMessage := fun _ => Returned "Nowa rozmowa";
  convertToUIMessages := List.map (fun m => mkChatMessage (db_id m) (db_role m) (db_parts m));
  getTextFromMessage := fun m => String.concat "" (List.map textOfPart (msg_parts m));
  generateUUID := fun n => "uuid-" +:+ pretty n;
  fetch := fun _ => sc_fetch sc;
  languageModel := fun _ => Returned (mkLanguageModel (sc_modelId sc));
  streamText := fun _ _ _ => sc_completion sc;
  responseMessages := fun chunks =>
    match chunks with
    | [] => []
    | _ => [mkChatMessage "assistant-1" "assistant" []]
    end;
  fetchModels := sc_fetchModels sc;
  getUsage := fun _ _ _ => sc_getUsage sc;
  createResumableStreamContext := fun _ => sc_streamContext sc
|}.

Definition rawUsage : Usage :=
  <["inputTokens" := JNum 120]> (<["outputTokens" := JNum 45]> ∅).

(** Alice is signed in, within quota, and every collaborator answers. *)
Definition sunny : Scenario :=
  {| sc_env := mkProcessEnv (Some "sk-test") None;
     sc_auth := Returned (Some (mkSession (Some (mkUser "alice" "regular"))));
     sc_quota := 100;
     sc_fetch := Returned (mkHttpResponse true 200 "OK"
                   (Returned (JObj [("data", JArr [JObj [("embedding", JArr [JNum 1; JNum 2])]])])));
     sc_search := Returned [];
     sc_saveMessagesFails := false;
     sc_updateContextFails := false;
     sc_modelId := JStr "chat-model";
     sc_completion := ([ModelChunk (JStr "Polecam")], Some rawUsage);
     sc_fetchModels := Returned (JObj [("providers", JArr [])]);
     sc_getUsage := Returned (<["costUSD" := JNum 1]> ∅);
     sc_streamContext := Thrown (Error "REDIS_URL environment variable is not set") |}.

Definition bobsChat : Chat := mkChat "chat-bob" "bob" "Zapachy na lato" "private".
Definition alicesChat : Chat := mkChat "chat-alice" "alice" "Zapachy na zimę" "private".

Definition userMessage (id chatId : string) : DBMessage :=
  mkDBMessage chatId id "user" [JObj [("type", JStr "text"); ("text", JStr "Szukam perfum")]] [] 0.

Definition store0 : Store :=
  {| chats := [bobsChat; alicesChat];
     messages := [userMessage "m1" "chat-alice"; userMessage "m2" "chat-alice";
                  userMessage "m3" "chat-bob"];
     streamIds := [];
     lastContexts := [] |}.

Definition world0 : World Store :=
  mkWorld store0 [] [] [] None None 0 1700000000.

Definition newMessage : ChatMessage :=
  mkChatMessage "m9" "user" [JObj [("type", JStr "text"); ("text", JStr "Coś świeżego?")]].

Definition postTo (chatId : string) : Request :=
  mkRequest (Some (mkPostRequestBody chatId newMessage "chat-model" "private")) None None.

Definition deleteOf (chatId : string) : Request :=
  mkRequest None (Some chatId) None.

End Memory.

(** ** The block of an item as the specification words it *)

Module Described.

Definition whenPresent (v : JsVal) (text : string) : string :=
  if isNullish v then "" else text.

(** One formatted entry per attribute that is not null, in the field order
    of the source; the name and the brand share the first line, the rating
    and the number of reviews share the rating line. *)
Definition blockOfNonNull (p : Perfume) : string :=
  (whenPresent (perfume_name p) ("**" +:+ toString (perfume_name p) +:+ "**") +:+
     whenPresent (brand p) (" (" +:+ toString (brand p) +:+ ")") +:+ nl) +:+
  whenPresent (description p)
    ("Opis: " +:+ toString (description p) +:+ nl) +:+
  (if isNullish (rating p) && isNullish (rating_count p) then ""
   else
     whenPresent (rating p) ("⭐ Ocena: " +:+ toString (rating p) +:+ "/5") +:+
     whenPresent (rating_count p)
       (" (" +:+ toString (rating_count p) +:+ " opinii)") +:+ nl) +:+
  whenPresent (notes p)
    ("Nuty zapachowe: " +:+ listOrJson (notes p) +:+ nl) +:+
  whenPresent (season p) ("Sezon: " +:+ listOrJson (season p) +:+ nl) +:+
  whenPresent (gender p) ("Dla: " +:+ listOrJson (gender p) +:+ nl) +:+
  whenPresent (longevity p)
    ("Trwałość: " +:+ stringified (longevity p) +:+ nl) +:+
  whenPresent (sillage p)
    ("Sillage: " +:+ stringified (sillage p) +:+ nl) +:+
  whenPresent (timeOfDay p)
    ("Pora dnia: " +:+ listOrJson (timeOfDay p) +:+ nl) +:+
  whenPresent (valueForMoney p)
    ("Stosunek jakości do ceny: " +:+ stringified (valueForMoney p) +:+ nl) +:+
  whenPresent (pros p) ("Zalety: " +:+ listOrJson (pros p) +:+ nl) +:+
  whenPresent (cons p) ("Wady: " +:+ listOrJson (cons p) +:+ nl) +:+
  whenPresent (similarPerfumes p)
    ("Podobne perfumy: " +:+ listOrJson (similarPerfumes p) +:+ nl).

(** An attribute that is null or undefined, or else passes the truth test
    of the source: not 0, not the empty string, not false. *)
Definition nullOrTruthy (v : JsVal) : bool := isNullish v || truthy v.

(** Rows on which being non-null and passing the truth test coincide: a
    name that is not null, no attribute that is 0, empty or false, and no
    number of reviews without a rating. *)
Definition plainRow (p : Perfume) : bool :=
  negb (isNullish (perfume_name p)) &&
  nullOrTruthy (brand p) && nullOrTruthy (description p) &&
  nullOrTruthy (rating p) && nullOrTruthy (rating_count p) &&
  nullOrTruthy (notes p) && nullOrTruthy (season p) &&
  nullOrTruthy (gender p) && nullOrTruthy (longevity p) &&
  nullOrTruthy (sillage p) && nullOrTruthy (timeOfDay p) &&
  nullOrTruthy (valueForMoney p) && nullOrTruthy (pros p) &&
  nullOrTruthy (cons p) && nullOrTruthy (similarPerfumes p) &&
  (isNullish (rating_count p) || negb (isNullish (rating p))).

Definition bareRow (name : string) : Perfume :=
  mkPerfume (JStr name) JNull JNull JNull JNull JNull JNull JNull JNull JNull
            JNull JNull JNull JNull JNull.

(** A row with reviews counted and no rating stored. *)
Definition countedUnrated : Perfume :=
  mkPerfume (JStr "Sauvage") JNull JNull JNull (JNum 12) JNull JNull JNull
            JNull JNull JNull JNull JNull JNull JNull.

(** A row whose rating is the number zero. *)
Definition ratedZero : Perfume :=
  mkPerfume (JStr "Sauvage") JNull JNull (JNum 0) JNull JNull JNull JNull
            JNull JNull JNull JNull JNull JNull JNull.

Definition fullRow : Perfume :=
  mkPerfume (JStr "Aventus") (JStr "Creed") (JStr "Owocowo-dymny")
            (JNum 4) (JNum 1200) (JArr [JStr "ananas"; JStr "brzoza"])
            (JArr [JStr "lato"]) (JStr "unisex")
            (JObj [("long", JNum 7)]) JNull JNull JNull
            (JArr [JStr "trwałe"]) JNull JNull.

End Described.
Export Described.

(** ** What the call trace of a handler may contain *)

Module Trace.

(** Every row handed to [saveMessages] has an empty attachment list. *)
Definition attachmentFree (c : Call) : Prop :=
  match c with
  | CallSaveMessages ms => Forall (fun m => db_attachments m = []) ms
  | _ => True
  end.

(** The rows handed to [saveMessages] over a trace, in order. *)
Definition savedRows (cs : list Call) : list DBMessage :=
  flat_map (fun c => match c with
                     | CallSaveMessages ms => ms
                     | _ => []
                     end) cs.

(** Every run of [m] takes a world to one related to it by [R]. *)
Definition steps {DB A} (R : World DB -> World DB -> Prop) (m : M DB A) : Prop :=
  forall w w' o, m w = (w', o) -> R w w'.

(** The trace only grew, and each added call satisfies [P]. *)
Definition extendsBy {DB} (P : Call -> Prop) (w w' : World DB) : Prop :=
  exists added, calls w' = (calls w ++ added)%list /\ Forall P added.

(** The module variable holding the stream context is as it was. *)
Definition keepsContext {DB} (w w' : World DB) : Prop :=
  globalStreamContext w' = globalStreamContext w.

(** The world with one more call in its trace. *)
Definition withCall {DB} (c : Call) (w : World DB) : World DB :=
  mkWorld (db w) (calls w ++ [c]) (console w) (dataStream w)
          (finalMergedUsage w) (globalStreamContext w) (uuidsDrawn w) (clock w).

(** The world the catch clause of [execute] leaves behind: the error on
    the console, the apology and the finish chunk on the stream, one
    identifier drawn. *)
Definition reported {DB} (error : Exn) (id : string) (w : World DB) : World DB :=
  mkWorld (db w) (calls w)
          (console w ++ [mkLogLine "error" "Error in perfume search:" (Some error)])
          ((dataStream w ++ [TextDelta apology id]) ++ [Finish])
          (finalMergedUsage w) (globalStreamContext w) (S (uuidsDrawn w)) (clock w).

End Trace.
Export Trace.

(** ** Scripts for the situations the properties speak about *)

Module Scenarios.
Import Memory.

Definition script (e : ProcessEnv) (a : Outcome (option Session)) (quota : Z)
    (f : Outcome HttpResponse) (found : Outcome (list Perfume))
    (saveFails updateFails : bool) (model : JsVal)
    (catalog : Outcome JsVal) (summary : Outcome Usage)
    (context : Outcome ResumableStreamContext) : Scenario :=
  mkScenario e a quota f found saveFails updateFails model
             (sc_completion sunny) catalog summary context.

Definition alice : Outcome (option Session) := sc_auth sunny.

Definition signedOut : Scenario :=
  script (sc_env sunny) (Returned None) 100 (sc_fetch sunny) (sc_search sunny)
         false false (sc_modelId sunny) (sc_fetchModels sunny) (sc_getUsage sunny)
         (sc_streamContext sunny).

(** Alice has two messages in the store. *)
Definition overQuota : Scenario :=
  script (sc_env sunny) alice 1 (sc_fetch sunny) (sc_search sunny)
         false false (sc_modelId sunny) (sc_fetchModels sunny) (sc_getUsage sunny)
         (sc_streamContext sunny).

Definition atQuota : Scenario :=
  script (sc_env sunny) alice 2 (sc_fetch sunny) (sc_search sunny)
         false false (sc_modelId sunny) (sc_fetchModels sunny) (sc_getUsage sunny)
         (sc_streamContext sunny).

Definition saveFails : Scenario :=
  script (sc_env sunny) alice 100 (sc_fetch sunny) (sc_search sunny)
         true false (sc_modelId sunny) (sc_fetchModels sunny) (sc_getUsage sunny)
         (sc_streamContext sunny).

Definition updateFails : Scenario :=
  script (sc_env sunny) alice 100 (sc_fetch sunny) (sc_search sunny)
         false true (sc_modelId sunny) (sc_fetchModels sunny) (sc_getUsage sunny)
         (sc_streamContext sunny).

Definition redisPresent : Scenario :=
  script (mkProcessEnv (Some "sk-test") (Some "redis://localhost:6379")) alice 100
         (sc_fetch sunny) (sc_search sunny)
         false false (sc_modelId sunny) (sc_fetchModels sunny) (sc_getUsage sunny)
         (Returned (mkCtx "redis")).

Definition withFetch (f : Outcome HttpResponse) : Scenario :=
  script (sc_env sunny) alice 100 f (sc_search sunny)
         false false (sc_modelId sunny) (sc_fetchModels sunny) (sc_getUsage sunny)
         (sc_streamContext sunny).

Definition invalidKeyResponse : HttpResponse :=
  mkHttpResponse false 401 "Unauthorized"
    (Returned (JObj [("error", JObj [("message", JStr "Incorrect API key")])])).

(** A gateway answers with a page that is not JSON. *)
Definition badGatewayResponse : HttpResponse :=
  mkHttpResponse false 502 "Bad Gateway"
    (Thrown (Error "Unexpected token < in JSON at position 0")).

Definition emptyDataResponse : HttpResponse :=
  mkHttpResponse true 200 "OK" (Returned (JObj [("data", JArr [])])).

Definition searchDown : Scenario :=
  script (sc_env sunny) alice 100 (sc_fetch sunny) (Thrown databaseError)
         false false (sc_modelId sunny) (sc_fetchModels sunny) (sc_getUsage sunny)
         (sc_streamContext sunny).

Definition withUsageTier (model : JsVal) (catalog : Outcome JsVal)
    (summary : Outcome Usage) : Scenario :=
  script (sc_env sunny) alice 100 (sc_fetch sunny) (sc_search sunny)
         false false model catalog summary (sc_streamContext sunny).

Definition assistantMessage : ChatMessage :=
  mkChatMessage "assistant-1" "assistant" [JObj [("type", JStr "text"); ("text", JStr "Polecam")]].

Definition aliceStream : UIStream :=
  mkUIStream "chat-alice" "chat-model" "Coś świeżego?".

(** The world after the reconciler stored a usage. *)
Definition worldWithUsage : World Store :=
  mkWorld store0 [] [] [ModelChunk (JStr "Polecam"); DataUsage rawUsage]
          (Some rawUsage) None 1 1700000000.

End Scenarios.

(** ** Words for what the handlers leave behind *)

Module Observed.

(** The code of the response the catch clause of POST builds, lines 330
    to 339. *)
Definition codeOf (e : Exn) : string :=
  match e with
  | ChatSDKError code _ => code
  | _ => "offline:chat"
  end.

(** The world that catch clause leaves: an error of the application goes
    by silently, anything else is logged. *)
Definition caught {DB} (e : Exn) (w : World DB) : World DB :=
  match e with
  | ChatSDKError _ _ => w
  | _ =>
      mkWorld (db w) (calls w)
              (console w ++ [mkLogLine "error" "Unhandled error in chat API:" (Some e)])
              (dataStream w) (finalMergedUsage w) (globalStreamContext w)
              (uuidsDrawn w) (clock w)
  end.

(** The chat row POST creates for a conversation it has not seen. *)
Definition newChat (b : PostRequestBody) (user : User) (title : string) : Chat :=
  mkChat (body_id b) (user_id user) title (body_selectedVisibilityType b).

(** The stream POST answers with. *)
Definition streamOf {DB} `{Collaborators DB} (b : PostRequestBody) : UIStream :=
  mkUIStream (body_id b) (body_selectedChatModel b)
             (getTextFromMessage (body_message b)).

(** A write POST may make for the body [b]: a chat row, the one row of the
    user's message, or a stream id, each for the chat the body names. *)
Definition postWrite (b : PostRequestBody) (c : Call) : Prop :=
  match c with
  | CallSaveChat ch =>
      chat_id ch = body_id b /\
      chat_visibility ch = body_selectedVisibilityType b
  | CallSaveMessages ms => exists createdAt, ms = [userRow b createdAt]
  | CallCreateStreamId _ chatId => chatId = body_id b
  | _ => False
  end.

Definition isFetchCall (c : Call) : Prop :=
  match c with
  | CallFetch _ => True
  | _ => False
  end.

(** The store and the stream context are as they were, and the trace grew
    by fetches only. *)
Definition onlyFetched {DB} (w w' : World DB) : Prop :=
  db w' = db w /\ globalStreamContext w' = globalStreamContext w /\
  clock w' = clock w /\ extendsBy isFetchCall w w'.

(** The world with a line more on the console. *)
Definition withLine {DB} (line : LogLine) (w : World DB) : World DB :=
  mkWorld (db w) (calls w) (console w ++ [line]) (dataStream w)
          (finalMergedUsage w) (globalStreamContext w) (uuidsDrawn w) (clock w).

(** The world with more chunks on the stream. *)
Definition withChunks {DB} (chunks : list Chunk) (w : World DB) : World DB :=
  mkWorld (db w) (calls w) (console w) (dataStream w ++ chunks)
          (finalMergedUsage w) (globalStreamContext w) (uuidsDrawn w) (clock w).

(** The rows [onFinish] of the stream hands to [saveMessages]. *)
Definition finishRows {DB} (s : UIStream) (messages : list ChatMessage)
    (w : World DB) : list DBMessage :=
  List.map (toDBMessage (us_chatId s) (clock w)) messages.

(** The world with the stream context cached. *)
Definition withContext {DB} (c : ResumableStreamContext) (w : World DB) : World DB :=
  mkWorld (db w) (calls w) (console w) (dataStream w)
          (finalMergedUsage w) (Some c) (uuidsDrawn w) (clock w).

(** The console line [getStreamContext] writes for a failed creation. *)
Definition contextFailureLine (message : string) : LogLine :=
  if includes "REDIS_URL" message
  then mkLogLine "log" " > Resumable streams are disabled due to missing REDIS_URL" None
  else mkLogLine "error" "" (Some (Error message)).

(** The calls of a trace that are writes of the store: everything but the
    requests of the embedding client. *)
Definition storeWrites (cs : list Call) : list Call :=
  List.filter (fun c => match c with
                        | CallFetch _ => false
                        | _ => true
                        end) cs.

(** The usage the reconciler stores, read off the collaborators alone:
    the spread of usage, summary and model id when the model has an id,
    the catalogue is there and the summary comes back, the raw usage in
    every other case. *)
Definition reconciled {DB} `{Collaborators DB} (s : UIStream) (usage : Usage) : Usage :=
  match languageModel (us_selectedChatModel s) with
  | Thrown _ => usage
  | Returned model =>
      if truthy (modelId model)
      then match fetchModels with
           | Thrown _ => usage
           | Returned providers =>
               if truthy providers
               then match getUsage (modelId model) usage providers with
                    | Returned summary =>
                        <["modelId" := modelId model]> (summary ∪ usage)
                    | Thrown _ => usage
                    end
               else usage
           end
      else usage
  end.

(** The stream once the completion has been relayed and the reconciled
    usage written after it. *)
Definition completedStream {DB} `{Collaborators DB} (s : UIStream)
    (model : LanguageModel) (perfumes : list Perfume) (usage : Usage)
    (w : World DB) : list Chunk :=
  (dataStream w ++
   fst (streamText model (systemPrompt perfumes) (us_userMessageText s)) ++
   [DataUsage (reconciled s usage)])%list.

(** Values all of whose numbers are safe integers, which JavaScript
    prints in plain decimal. *)
Fixpoint safeNumbers (v : JsVal) : bool :=
  match v with
  | JNum n => Z.abs n <=? 9007199254740991
  | JArr items => forallb safeNumbers items
  | JObj props => forallb (fun kv => safeNumbers (snd kv)) props
  | _ => true
  end.

(** A row with a name and nothing else that passes the truth test. *)
Definition onlyNamed (p : Perfume) : bool :=
  negb (truthy (brand p) || truthy (description p) || truthy (rating p) ||
        truthy (notes p) || truthy (season p) || truthy (gender p) ||
        truthy (longevity p) || truthy (sillage p) || truthy (timeOfDay p) ||
        truthy (valueForMoney p) || truthy (pros p) || truthy (cons p) ||
        truthy (similarPerfumes p)).

End Observed.
Export Observed.

(** ** More scripts *)

Module MoreScenarios.
Import Memory Scenarios.

Definition withAuth (a : Outcome (option Session)) : Scenario :=
  script (sc_env sunny) a 100 (sc_fetch sunny) (sc_search sunny)
         false false (sc_modelId sunny) (sc_fetchModels sunny) (sc_getUsage sunny)
         (sc_streamContext sunny).

Definition withEnv (e : ProcessEnv) : Scenario :=
  script e alice 100 (sc_fetch sunny) (sc_search sunny)
         false false (sc_modelId sunny) (sc_fetchModels sunny) (sc_getUsage sunny)
         (sc_streamContext sunny).

Definition withStreamContext (c : Outcome ResumableStreamContext) : Scenario :=
  script (sc_env sunny) alice 100 (sc_fetch sunny) (sc_search sunny)
         false false (sc_modelId sunny) (sc_fetchModels sunny) (sc_getUsage sunny) c.

Definition sessionExpired : Exn :=
  ChatSDKError "unauthorized:auth" "You need to sign in before continuing.".

Definition noIdRequest : Request := mkRequest None None None.

Definition aliceUser : User := mkUser "alice" "regular".

Definition aliceSession : Session := mkSession (Some aliceUser).

Definition bodyFor (chatId : string) : PostRequestBody :=
  mkPostRequestBody chatId newMessage "chat-model" "private".

(** An embeddings answer laid out as the service lays it out. *)
Definition embeddingEntry : list (string * JsVal) :=
  [("object", JStr "embedding"); ("index", JNum 0)] ++
  ("embedding", JArr [JNum 1; JNum 2]) :: [].

Definition listBody : JsVal :=
  JObj ([("object", JStr "list")] ++
        ("data", JArr (JObj embeddingEntry :: [])) ::
        [("model", JStr "text-embedding-3-small")]).

Definition listResponse : HttpResponse :=
  mkHttpResponse true 200 "OK" (Returned listBody).

Definition fetchFailed : Exn := Error "fetch failed".

(** Another gateway page, with other text, under the same status. *)
Definition maintenanceResponse : HttpResponse :=
  mkHttpResponse false 502 "Bad Gateway"
    (Thrown (Error "Unexpected token M in JSON at position 0")).

(** A world in which a stream has just been set up and nothing written. *)
Definition worldStreaming : World Store :=
  mkWorld store0 [] [] [] None None 2 1700000000.

Definition worldAfterPost : World Store :=
  mkWorld store0 [] [] [] None None 1 1700000000.

End MoreScenarios.

(** ** Running the handler monad in proofs *)

Ltac unfold_monad :=
  unfold tryCatch, settle, query, command, throw, recordCall, consoleLog,
    write, setFinalMergedUsage, setGlobalStreamContext, readWorld, drawUUID,
    mbind, M_bind, bind, mret, M_ret, ret in *.

(** Unfold one handler and its monad operations, then compute. *)
Ltac run_handler h := unfold h; unfold_monad; cbn.

(** ** The guards of POST and DELETE *)

Section Guards.
Context {DB : Type} `{Collaborators DB}.
Implicit Types (w : World DB) (request : Request) (b : PostRequestBody).

(** POST after the quota check, on a chat that is someone else's. *)
Lemma POST_foreign_chat request b w session user n c :
  parsedBody request = Some b ->
  auth = Returned (Some session) ->
  session_user session = Some user ->
  getMessageCountByUserId (user_id user) 24 (db w) = Returned n ->
  n <= entitlement (user_type user) ->
  getChatById (body_id b) (db w) = Returned (Some c) ->
  chat_userId c <> user_id user ->
  POST request w = (w, Returned (ErrorResponse "forbidden:chat")).
Proof.
  intros Hb Hauth Huser Hcount Hle Hchat Hne. run_handler (@POST).
  rewrite Hb, Hauth. cbn. rewrite Huser, Hcount.
  destruct (Z.ltb_spec (entitlement (user_type user)) n); [lia |].
  rewrite Hchat.
  destruct (String.eqb_spec (chat_userId c) (user_id user)); [contradiction |].
  reflexivity.
Qed.

Lemma DELETE_foreign_chat request id w session user chat :
  searchId request = Some id ->
  id <> "" ->
  auth = Returned (Some session) ->
  session_user session = Some user ->
  getChatById id (db w) = Returned chat ->
  (forall c, chat = Some c -> chat_userId c <> user_id user) ->
  DELETE request w = (w, Returned (ErrorResponse "forbidden:chat")).
Proof.
  intros Hid Hne Hauth Huser Hchat Hforeign. run_handler (@DELETE).
  rewrite Hid. destruct id as [| a id']; [contradiction |].
  rewrite Hauth. cbn. rewrite Huser, Hchat.
  destruct chat as [c |]; cbn; [| reflexivity].
  destruct (String.eqb_spec (chat_userId c) (user_id user)) as [Heq | _];
    [| reflexivity].
  exfalso. exact (Hforeign c eq_refl Heq).
Qed.

End Guards.

Section GuardClaims.
Context {DB : Type} `{Collaborators DB}.
Implicit Types (w : World DB) (request : Request) (b : PostRequestBody).

(** C2. For every valid POST payload, when [auth()] yields no session or
    a session without a user, POST answers [unauthorized:chat] and hands
    back the world it was given: the store is the same and the call
    trace has no new entry, so no chat was created, no message saved
    and no stream id created. *)
Theorem unauthenticated_post_rejected_before_persistence
    request b w (session : option Session) :
  parsedBody request = Some b ->
  auth = Returned session ->
  session ≫= session_user = None ->
  POST request w = (w, Returned (ErrorResponse "unauthorized:chat")) /\
  db (fst (POST request w)) = db w /\
  calls (fst (POST request w)) = calls w.
Proof.
  intros Hb Hauth Hnone.
  assert (Hrun : POST request w = (w, Returned (ErrorResponse "unauthorized:chat"))).
  { run_handler (@POST). rewrite Hb, Hauth. cbn. rewrite Hnone. reflexivity. }
  rewrite Hrun. repeat split.
Qed.

(** C1, amended.  For a signed-in caller: a POST within the daily quota
    to a chat that exists and belongs to someone else answers
    [forbidden:chat], and a DELETE of a chat that belongs to someone
    else or does not exist answers [forbidden:chat]; both hand back the
    world they were given, so nothing was saved, created or deleted. *)
Theorem foreign_conversation_forbidden_within_quota w session user :
  auth = Returned (Some session) ->
  session_user session = Some user ->
  (forall request b n c,
      parsedBody request = Some b ->
      getMessageCountByUserId (user_id user) 24 (db w) = Returned n ->
      n <= entitlement (user_type user) ->
      getChatById (body_id b) (db w) = Returned (Some c) ->
      chat_userId c <> user_id user ->
      POST request w = (w, Returned (ErrorResponse "forbidden:chat"))) /\
  (forall request id chat,
      searchId request = Some id ->
      id <> "" ->
      getChatById id (db w) = Returned chat ->
      (forall c, chat = Some c -> chat_userId c <> user_id user) ->
      DELETE request w = (w, Returned (ErrorResponse "forbidden:chat"))).
Proof.
  intros Hauth Huser. split.
  - intros request b n c Hb Hcount Hle Hchat Hne.
    exact (POST_foreign_chat request b w session user n c
             Hb Hauth Huser Hcount Hle Hchat Hne).
  - intros request id chat Hid Hne Hchat Hforeign.
    exact (DELETE_foreign_chat request id w session user chat
             Hid Hne Hauth Huser Hchat Hforeign).
Qed.

(** C3, amended.  For a signed-in caller whose message count over the
    last 24 hours is strictly greater than the daily quota of their
    user type, POST answers [rate_limit:chat] and hands back the world
    it was given. *)
Theorem over_quota_post_rate_limited request b w session user n :
  parsedBody request = Some b ->
  auth = Returned (Some session) ->
  session_user session = Some user ->
  getMessageCountByUserId (user_id user) 24 (db w) = Returned n ->
  entitlement (user_type user) < n ->
  POST request w = (w, Returned (ErrorResponse "rate_limit:chat")).
Proof.
  intros Hb Hauth Huser Hcount Hlt. run_handler (@POST).
  rewrite Hb, Hauth. cbn. rewrite Huser, Hcount.
  destruct (Z.ltb_spec (entitlement (user_type user)) n); [reflexivity | lia].
Qed.

End GuardClaims.

Section GuardRuns.
Import Memory Scenarios.

Lemma unauthenticated_post_witness :
  @POST _ (scripted signedOut) (postTo "chat-alice") world0
    = (world0, Returned (ErrorResponse "unauthorized:chat")) /\
  db (fst (@POST _ (scripted signedOut) (postTo "chat-alice") world0)) = store0 /\
  calls (fst (@POST _ (scripted signedOut) (postTo "chat-alice") world0)) = [].
Proof.
  apply (@unauthenticated_post_rejected_before_persistence
           Store (scripted signedOut) (postTo "chat-alice")
           (mkPostRequestBody "chat-alice" newMessage "chat-model" "private")
           world0 None); reflexivity.
Defined.

Lemma foreign_conversation_witness :
  @POST _ (scripted sunny) (postTo "chat-bob") world0
    = (world0, Returned (ErrorResponse "forbidden:chat")) /\
  @DELETE _ (scripted sunny) (deleteOf "chat-bob") world0
    = (world0, Returned (ErrorResponse "forbidden:chat")) /\
  @DELETE _ (scripted sunny) (deleteOf "chat-unknown") world0
    = (world0, Returned (ErrorResponse "forbidden:chat")).
Proof.
  destruct (@foreign_conversation_forbidden_within_quota
              Store (scripted sunny) world0
              (mkSession (Some (mkUser "alice" "regular")))
              (mkUser "alice" "regular") eq_refl eq_refl) as [Hpost Hdelete].
  split; [| split].
  - apply (Hpost (postTo "chat-bob")
                 (mkPostRequestBody "chat-bob" newMessage "chat-model" "private")
                 2 bobsChat); try reflexivity.
    + vm_compute. discriminate.
    + vm_compute. discriminate.
  - apply (Hdelete (deleteOf "chat-bob") "chat-bob" (Some bobsChat));
      try reflexivity; [discriminate |].
    intros c Hc. injection Hc as <-. vm_compute. discriminate.
  - apply (Hdelete (deleteOf "chat-unknown") "chat-unknown" None);
      try reflexivity; [discriminate |].
    intros c Hc. discriminate Hc.
Defined.

(** C1 as stated fails: Alice is signed in and over her quota, the chat
    exists and is Bob's, and POST answers [rate_limit:chat], since the
    quota check of line 120 runs before the owner check of line 128. *)
Lemma forbidden_preempted_by_rate_limit :
  sc_auth overQuota = Returned (Some (mkSession (Some (mkUser "alice" "regular")))) /\
  @getChatById _ (scripted overQuota) "chat-bob" store0 = Returned (Some bobsChat) /\
  chat_userId bobsChat <> "alice" /\
  @POST _ (scripted overQuota) (postTo "chat-bob") world0
    = (world0, Returned (ErrorResponse "rate_limit:chat")) /\
  @POST _ (scripted overQuota) (postTo "chat-bob") world0
    <> (world0, Returned (ErrorResponse "forbidden:chat")).
Proof.
  split; [reflexivity |]. split; [reflexivity |].
  split; [vm_compute; discriminate |].
  assert (Hrun : @POST _ (scripted overQuota) (postTo "chat-bob") world0
                 = (world0, Returned (ErrorResponse "rate_limit:chat")))
    by (vm_compute; reflexivity).
  split; [exact Hrun |]. rewrite Hrun. intros Heq. discriminate Heq.
Qed.

Lemma over_quota_witness :
  @POST _ (scripted overQuota) (postTo "chat-alice") world0
    = (world0, Returned (ErrorResponse "rate_limit:chat")).
Proof.
  apply (@over_quota_post_rate_limited
           Store (scripted overQuota) (postTo "chat-alice")
           (mkPostRequestBody "chat-alice" newMessage "chat-model" "private")
           world0 (mkSession (Some (mkUser "alice" "regular")))
           (mkUser "alice" "regular") 2); try reflexivity.
Defined.

(** C3 as stated fails at the boundary: Alice has sent exactly her quota
    of two messages, and POST goes on to save her message and answer
    with the stream, since line 120 compares with [>]. *)
Lemma at_quota_post_not_rate_limited :
  @getMessageCountByUserId _ (scripted atQuota) "alice" 24 store0 = Returned 2 /\
  @entitlement _ (scripted atQuota) "regular" = 2 /\
  2 >= 2 /\
  snd (@POST _ (scripted atQuota) (postTo "chat-alice") world0)
    = Returned (StreamResponse (PlainStream aliceStream)) /\
  snd (@POST _ (scripted atQuota) (postTo "chat-alice") world0)
    <> Returned (ErrorResponse "rate_limit:chat").
Proof.
  split; [reflexivity |]. split; [reflexivity |]. split; [lia |].
  assert (Hrun : snd (@POST _ (scripted atQuota) (postTo "chat-alice") world0)
                 = Returned (StreamResponse (PlainStream aliceStream)))
    by (vm_compute; reflexivity).
  split; [exact Hrun |]. rewrite Hrun. intros Heq. discriminate Heq.
Qed.

End GuardRuns.

(** ** Prompt assembly *)

Section PromptFacts.

Lemma append_assoc (a b c : string) : (a +:+ b) +:+ c = a +:+ (b +:+ c).
Proof.
  induction a as [| x a IH]; [reflexivity |].
  change (String x ((a +:+ b) +:+ c) = String x (a +:+ (b +:+ c))).
  rewrite IH. reflexivity.
Qed.

Lemma whenTruthy_whenPresent v text :
  nullOrTruthy v = true -> whenTruthy v text = whenPresent v text.
Proof.
  unfold nullOrTruthy, whenTruthy, whenPresent.
  destruct (isNullish v) eqn:Hnull.
  - destruct v; try discriminate Hnull; reflexivity.
  - cbn. intros ->. reflexivity.
Qed.

Lemma ratingLine_plain r n :
  nullOrTruthy r = true ->
  nullOrTruthy n = true ->
  isNullish n || negb (isNullish r) = true ->
  whenTruthy r
    ("⭐ Ocena: " +:+ toString r +:+ "/5" +:+
       whenTruthy n (" (" +:+ toString n +:+ " opinii)") +:+ nl)
  = (if isNullish r && isNullish n then ""
     else
       whenPresent r ("⭐ Ocena: " +:+ toString r +:+ "/5") +:+
       whenPresent n (" (" +:+ toString n +:+ " opinii)") +:+ nl).
Proof.
  intros Hr Hn Hboth.
  rewrite (whenTruthy_whenPresent n _ Hn).
  rewrite (whenTruthy_whenPresent r _ Hr).
  unfold whenPresent at 1 3.
  destruct (isNullish r) eqn:Er; cbn [andb orb negb] in *.
  - rewrite orb_false_r in Hboth. rewrite Hboth. reflexivity.
  - rewrite !append_assoc. reflexivity.
Qed.

(** On a plain row the source and the description agree. *)
Lemma renderPerfume_plain p :
  plainRow p = true -> renderPerfume p = blockOfNonNull p.
Proof.
  unfold plainRow. rewrite !andb_true_iff.
  intros [[[[[[[[[[[[[[[Hname Hbrand] Hdesc] Hrat] Hcnt] Hnotes] Hseason]
    Hgender] Hlong] Hsill] Htime] Hvalue] Hpros] Hcons] Hsim] Hpair].
  unfold renderPerfume, blockOfNonNull.
  rewrite (ratingLine_plain _ _ Hrat Hcnt Hpair).
  rewrite !whenTruthy_whenPresent by assumption.
  apply negb_true_iff in Hname.
  replace (whenPresent (perfume_name p)
             ("**" +:+ toString (perfume_name p) +:+ "**"))
    with ("**" +:+ toString (perfume_name p) +:+ "**")
    by (unfold whenPresent; now rewrite Hname).
  rewrite !append_assoc. reflexivity.
Qed.

Lemma map_renderPerfume_plain ps :
  forallb plainRow ps = true ->
  List.map renderPerfume ps = List.map blockOfNonNull ps.
Proof.
  induction ps as [| p ps IH]; cbn; [reflexivity |].
  rewrite andb_true_iff. intros [Hp Hps].
  rewrite (renderPerfume_plain p Hp), (IH Hps). reflexivity.
Qed.

(** C4, amended.  The prompt is a function of the retrieved rows alone.
    For a non-empty list of plain rows (name not null, every other
    attribute null or passing the truth test, no review count without a
    rating) it is the fixed head, the introduction, the blocks holding
    exactly the non-null attributes in field order and joined by the
    separator, the closing instruction and the fixed tail; for the empty
    list it is the head, the fallback sentence and the tail; equal lists
    give equal text. *)
Theorem prompt_of_plain_rows (perfumes : list Perfume) :
  (perfumes <> [] ->
   forallb plainRow perfumes = true ->
   systemPrompt perfumes
     = templateHead +:+
       (foundIntro +:+
        String.concat separator (List.map blockOfNonNull perfumes) +:+
        foundOutro) +:+
       templateTail) /\
  systemPrompt [] = templateHead +:+ fallbackSentence +:+ templateTail /\
  (forall others, perfumes = others -> systemPrompt perfumes = systemPrompt others).
Proof.
  split; [| split].
  - intros Hne Hplain. unfold systemPrompt, perfumesContext.
    destruct perfumes as [| p ps]; [contradiction |].
    cbn [length Nat.ltb Nat.leb].
    rewrite (map_renderPerfume_plain (p :: ps) Hplain). reflexivity.
  - reflexivity.
  - intros others ->. reflexivity.
Qed.

Lemma prompt_of_plain_rows_witness :
  systemPrompt [fullRow; bareRow "Eros"]
    = templateHead +:+
      (foundIntro +:+
       String.concat separator (List.map blockOfNonNull [fullRow; bareRow "Eros"]) +:+
       foundOutro) +:+
      templateTail.
Proof.
  apply (proj1 (prompt_of_plain_rows [fullRow; bareRow "Eros"])).
  - discriminate.
  - vm_compute. reflexivity.
Defined.

(** C4 as stated fails: a row whose review count is 12 and whose rating
    is null, and a row whose rating is the number 0, both have a
    non-null attribute and both render as the name line alone, which is
    not the block of their non-null attributes. *)
Lemma non_null_attribute_left_out :
  isNullish (rating_count countedUnrated) = false /\
  renderPerfume countedUnrated = "**Sauvage**" +:+ nl /\
  perfumesContext [countedUnrated]
    <> String.concat separator (List.map blockOfNonNull [countedUnrated]) /\
  isNullish (rating ratedZero) = false /\
  renderPerfume ratedZero = "**Sauvage**" +:+ nl /\
  perfumesContext [ratedZero]
    <> String.concat separator (List.map blockOfNonNull [ratedZero]).
Proof.
  repeat split; try reflexivity; vm_compute; discriminate.
Qed.

End PromptFacts.

(** ** The usage reconciler *)

Section UsageReconciler.
Context {DB : Type} `{Collaborators DB}.
Implicit Types (w : World DB) (s : UIStream) (usage : Usage).

Lemma raw_keys_kept usage (summary : Usage) (id : JsVal) :
  dom usage ⊆ dom (<["modelId" := id]> (summary ∪ usage)).
Proof. rewrite dom_insert, dom_union. set_solver. Qed.

(** C5. The reconciler always returns: whatever the catalogue fetch, the
    provider and the enrichment do, it stores a usage object and writes
    it to the stream as one [data-usage] chunk, touching neither the
    store nor the call trace.  The stored object has every key of the
    raw usage, and in each fallback tier it is the raw usage itself. *)
Theorem usage_reconciler_never_throws s usage w :
  exists w' merged,
    usageOnFinish s usage w = (w', Returned tt) /\
    finalMergedUsage w' = Some merged /\
    dataStream w' = (dataStream w ++ [DataUsage merged])%list /\
    dom usage ⊆ dom merged /\
    db w' = db w /\ calls w' = calls w /\
    (fallbackTier s usage -> merged = usage).
Proof.
  unfold usageOnFinish, getTokenlensCatalog, fallbackTier. unfold_monad.
  destruct fetchModels as [catalog | e1] eqn:Hcat; cbn;
    (destruct (languageModel (us_selectedChatModel s)) as [model | e2] eqn:Hmodel;
     cbn; [| eexists _, usage; cbn; repeat split; reflexivity]);
    (destruct (truthy (modelId model)) eqn:Hid; cbn;
     [| eexists _, usage; cbn; repeat split; reflexivity]).
  - destruct (truthy catalog) eqn:Htruthy; cbn;
      [| eexists _, usage; cbn; repeat split; reflexivity].
    destruct (getUsage (modelId model) usage catalog) as [summary | e3] eqn:Hsum;
      cbn; [| eexists _, usage; cbn; repeat split; reflexivity].
    eexists _, _. cbn. repeat split; try reflexivity.
    + apply raw_keys_kept.
    + intros [(m & Hm & Hfalse) | [(e & He) | [(c & Hc & Hfalse) |
               [(e & He) | (m & c & e & Hm & Hc & He)]]]]; try congruence.
  - eexists _, usage. cbn. repeat split; reflexivity.
Qed.

End UsageReconciler.

Section UsageRuns.
Import Memory Scenarios.

(** The catalogue fetch fails and the raw usage comes out unchanged. *)
Lemma usage_reconciler_witness :
  exists w',
    @usageOnFinish _ (scripted (withUsageTier (JStr "chat-model")
                                  (Thrown (Error "fetch failed"))
                                  (sc_getUsage sunny)))
                   aliceStream rawUsage world0 = (w', Returned tt) /\
    finalMergedUsage w' = Some rawUsage.
Proof.
  destruct (@usage_reconciler_never_throws Store
              (scripted (withUsageTier (JStr "chat-model")
                           (Thrown (Error "fetch failed")) (sc_getUsage sunny)))
              aliceStream rawUsage world0)
    as (w' & merged & Hrun & Hstored & _ & _ & _ & _ & Hraw).
  exists w'. split; [exact Hrun |].
  rewrite Hstored. f_equal. apply Hraw.
  right. left. exists (Error "fetch failed"). reflexivity.
Defined.

End UsageRuns.

(** ** The embedding client and the streaming phase *)

Section Streaming.
Context {DB : Type} `{Collaborators DB}.
Implicit Types (w : World DB) (s : UIStream) (text : string).

(** The client leaves the world alone or adds one fetch to the trace. *)
Lemma generateEmbedding_world text w w' o :
  generateEmbedding text w = (w', o) ->
  w' = w \/ exists key, w' = withCall (CallFetch (embeddingsRequest key text)) w.
Proof.
  unfold generateEmbedding, withCall. unfold_monad.
  destruct (OPENAI_API_KEY env) as [[| a key] |]; cbn;
    try (intros [= <- _]; now left).
  intros Hrun. right. exists (String a key).
  destruct (fetch (embeddingsRequest (String a key) text)) as [response | e];
    cbn in Hrun; [| now injection Hrun as <- _].
  destruct (resp_ok response); cbn in Hrun; [| now injection Hrun as <- _].
  destruct (resp_json response) as [data | e]; cbn in Hrun;
    [| now injection Hrun as <- _].
  destruct (getProp data "data") as [inner | e]; cbn in Hrun;
    [| now injection Hrun as <- _].
  destruct (truthy (optProp (optFirst inner) "embedding")); cbn in Hrun;
    now injection Hrun as <- _.
Qed.

(** Whatever the client throws went through its catch clause. *)
Lemma generateEmbedding_throws_wrapped text w w' e :
  generateEmbedding text w = (w', Thrown e) ->
  exists cause, e = wrapped cause.
Proof.
  unfold generateEmbedding. unfold_monad.
  destruct (OPENAI_API_KEY env) as [[| a key] |]; cbn;
    try (intros [= _ <-]; eexists; reflexivity).
  destruct (fetch (embeddingsRequest (String a key) text)) as [response | e0];
    cbn; [| intros [= _ <-]; eexists; reflexivity].
  destruct (resp_ok response); cbn; [| intros [= _ <-]; eexists; reflexivity].
  destruct (resp_json response) as [data | e0]; cbn;
    [| intros [= _ <-]; eexists; reflexivity].
  destruct (getProp data "data") as [inner | e0]; cbn;
    [| intros [= _ <-]; eexists; reflexivity].
  destruct (truthy (optProp (optFirst inner) "embedding")); cbn;
    [discriminate | intros [= _ <-]; eexists; reflexivity].
Qed.

(** A failed embedding call ends [execute] in its catch clause: no
    search, no completion. *)
Lemma execute_embedding_failure s w w1 e :
  generateEmbedding (us_userMessageText s) w = (w1, Thrown e) ->
  execute s w = (reported e (generateUUID (uuidsDrawn w1)) w1, Returned tt).
Proof.
  intros Hemb. unfold execute, reported. unfold_monad.
  rewrite Hemb. reflexivity.
Qed.

Lemma execute_search_failure s w w1 v e :
  generateEmbedding (us_userMessageText s) w = (w1, Returned v) ->
  searchPerfumesByEmbedding v 5 (db w1) = Thrown e ->
  execute s w = (reported e (generateUUID (uuidsDrawn w1)) w1, Returned tt).
Proof.
  intros Hemb Hsearch. unfold execute, reported. unfold_monad.
  rewrite Hemb. cbn. rewrite Hsearch. reflexivity.
Qed.

Lemma reported_stream error id w w1 :
  dataStream w1 = dataStream w ->
  dataStream (reported error id w1)
    = (dataStream w ++ [TextDelta apology id; Finish])%list.
Proof. intros <-. cbn. now rewrite <- app_assoc. Qed.

(** C6.  What the catch clause of [execute] does when the embedding client
    or the similarity search throws: [execute] returns, the store is as
    it was, and the chunks it added to the stream are exactly two, a
    text delta carrying the apology under the identifier drawn at that
    moment and then the finish chunk.  No chunk opens a text part under
    that identifier first, and none closes it: on a stream nothing was
    written to, the text delta is the first chunk.  The stream protocol
    takes a text delta only for a part opened by a text-start chunk, so
    the apology does not reach the reader as text. *)
Theorem stream_failure_writes_unopened_text_delta s w :
  (exists w1 e, generateEmbedding (us_userMessageText s) w = (w1, Thrown e)) \/
  (exists w1 v e, generateEmbedding (us_userMessageText s) w = (w1, Returned v) /\
                  searchPerfumesByEmbedding v 5 (db w1) = Thrown e) ->
  exists w',
    execute s w = (w', Returned tt) /\
    dataStream w'
      = (dataStream w ++ [TextDelta apology (generateUUID (uuidsDrawn w)); Finish])%list /\
    (dataStream w = [] ->
     dataStream w' = [TextDelta apology (generateUUID (uuidsDrawn w)); Finish]) /\
    db w' = db w.
Proof.
  intros Hfails.
  assert (Hrun : exists w1 e,
            execute s w = (reported e (generateUUID (uuidsDrawn w1)) w1, Returned tt) /\
            (w1 = w \/ exists key,
                w1 = withCall (CallFetch (embeddingsRequest key (us_userMessageText s))) w)).
  { destruct Hfails as [(w1 & e & Hemb) | (w1 & v & e & Hemb & Hsearch)];
      exists w1, e; split;
      try exact (generateEmbedding_world _ _ _ _ Hemb).
    - exact (execute_embedding_failure s w w1 e Hemb).
    - exact (execute_search_failure s w w1 v e Hemb Hsearch). }
  destruct Hrun as (w1 & e & Hrun & Hw1).
  exists (reported e (generateUUID (uuidsDrawn w1)) w1).
  split; [exact Hrun |].
  assert (Hstream : dataStream (reported e (generateUUID (uuidsDrawn w1)) w1)
            = (dataStream w ++ [TextDelta apology (generateUUID (uuidsDrawn w)); Finish])%list).
  { destruct Hw1 as [-> | [key ->]]; apply reported_stream; reflexivity. }
  split; [exact Hstream |]. split.
  - intros Hfresh. rewrite Hstream, Hfresh. reflexivity.
  - destruct Hw1 as [-> | [key ->]]; reflexivity.
Qed.

(** C9, amended.  With an API key set and a response from the service: a
    response that is not ok makes the client throw the wrapped error
    whose message carries the status and the status text, followed by the
    JSON of the body when the body parses as JSON and by an empty object
    when it does not; an ok response without an embedding makes it throw
    the wrapped no-embedding error; every throw is wrapped; every run
    makes exactly one fetch; and a throw ends [execute] in its catch
    clause with no further call.  The status is a three-digit number and
    the numbers of the body are safe integers. *)
Theorem embedding_failures_wrapped_without_retry text w apiKey response :
  OPENAI_API_KEY env = Some apiKey ->
  apiKey <> "" ->
  fetch (embeddingsRequest apiKey text) = Returned response ->
  (resp_ok response = false ->
   100 <= resp_status response <= 999 ->
   forall body,
     resp_json response = Returned body ->
     safeNumbers body = true ->
     generateEmbedding text w
       = (withCall (CallFetch (embeddingsRequest apiKey text)) w,
          Thrown (Error ("Failed to generate embedding: " +:+
                         "OpenAI API error: " +:+ pretty (resp_status response) +:+
                         " " +:+ resp_statusText response +:+ " - " +:+
                         stringified body)))) /\
  (resp_ok response = false ->
   100 <= resp_status response <= 999 ->
   forall e,
     resp_json response = Thrown e ->
     generateEmbedding text w
       = (withCall (CallFetch (embeddingsRequest apiKey text)) w,
          Thrown (Error ("Failed to generate embedding: " +:+
                         "OpenAI API error: " +:+ pretty (resp_status response) +:+
                         " " +:+ resp_statusText response +:+ " - " +:+ "{}")))) /\
  (resp_ok response = true ->
   forall data inner,
     resp_json response = Returned data ->
     getProp data "data" = Returned inner ->
     truthy (optProp (optFirst inner) "embedding") = false ->
     generateEmbedding text w
       = (withCall (CallFetch (embeddingsRequest apiKey text)) w,
          Thrown (Error ("Failed to generate embedding: " +:+
                         "Failed to generate embedding: no embedding in response")))) /\
  (forall w' e, generateEmbedding text w = (w', Thrown e) ->
                exists cause, e = wrapped cause) /\
  (forall w' o, generateEmbedding text w = (w', o) ->
                calls w' = (calls w ++ [CallFetch (embeddingsRequest apiKey text)])%list) /\
  (forall s w' e,
      us_userMessageText s = text ->
      generateEmbedding text w = (w', Thrown e) ->
      execute s w = (reported e (generateUUID (uuidsDrawn w)) w', Returned tt) /\
      calls (reported e (generateUUID (uuidsDrawn w)) w')
        = (calls w ++ [CallFetch (embeddingsRequest apiKey text)])%list).
Proof.
  intros Hkey Hne Hfetch.
  assert (Hcalls : forall w' o, generateEmbedding text w = (w', o) ->
            w' = withCall (CallFetch (embeddingsRequest apiKey text)) w).
  { unfold generateEmbedding, withCall. unfold_monad. rewrite Hkey.
    destruct apiKey as [| a key]; [contradiction |]. cbn. rewrite Hfetch. cbn.
    intros w' o.
    destruct (resp_ok response); cbn; [| now intros [= <- _]].
    destruct (resp_json response) as [data | e]; cbn; [| now intros [= <- _]].
    destruct (getProp data "data") as [inner | e]; cbn; [| now intros [= <- _]].
    destruct (truthy (optProp (optFirst inner) "embedding")); cbn;
      now intros [= <- _]. }
  split; [| split; [| split; [| split; [| split]]]].
  - intros Hok _ body Hjson _.
    unfold generateEmbedding, withCall, apiErrorMessage. unfold_monad.
    rewrite Hkey. destruct apiKey as [| a key]; [contradiction |].
    cbn. rewrite Hfetch. cbn. rewrite Hok. cbn. rewrite Hjson. reflexivity.
  - intros Hok _ e Hjson.
    unfold generateEmbedding, withCall, apiErrorMessage. unfold_monad.
    rewrite Hkey. destruct apiKey as [| a key]; [contradiction |].
    cbn. rewrite Hfetch. cbn. rewrite Hok. cbn. rewrite Hjson. reflexivity.
  - intros Hok data inner Hjson Hdata Hfalsy.
    unfold generateEmbedding, withCall. unfold_monad.
    rewrite Hkey. destruct apiKey as [| a key]; [contradiction |].
    cbn. rewrite Hfetch. cbn. rewrite Hok. cbn. rewrite Hjson. cbn.
    rewrite Hdata. cbn. rewrite Hfalsy. reflexivity.
  - intros w' e. apply generateEmbedding_throws_wrapped.
  - intros w' o Hrun. rewrite (Hcalls w' o Hrun). reflexivity.
  - intros s w' e <- Hrun.
    rewrite (execute_embedding_failure s w w' e Hrun).
    rewrite (Hcalls w' _ Hrun). split; reflexivity.
Qed.

End Streaming.

(** ** Relations kept by every step of a handler *)

Section Steps.
Context {DB : Type}.
Variable R : World DB -> World DB -> Prop.
Hypothesis R_refl : forall w, R w w.
Hypothesis R_trans : forall w1 w2 w3, R w1 w2 -> R w2 w3 -> R w1 w3.

Lemma steps_ret {A} (a : A) : steps R (mret a : M DB A).
Proof. intros w w' o [= <- _]. apply R_refl. Qed.

Lemma steps_settle {A} (o : Outcome A) : steps R (settle o : M DB A).
Proof. intros w w' o' [= <- _]. apply R_refl. Qed.

Lemma steps_throw {A} (e : Exn) : steps R (throw e : M DB A).
Proof. intros w w' o' [= <- _]. apply R_refl. Qed.

Lemma steps_query {A} (q : DB -> Outcome A) : steps R (query q).
Proof. intros w w' o' [= <- _]. apply R_refl. Qed.

Lemma steps_readWorld {A} (f : World DB -> A) : steps R (readWorld f).
Proof. intros w w' o' [= <- _]. apply R_refl. Qed.

Lemma steps_bind {A B} (m : M DB A) (k : A -> M DB B) :
  steps R m -> (forall a, steps R (k a)) -> steps R (m ≫= k).
Proof.
  intros Hm Hk w w' o. unfold mbind, M_bind, bind.
  destruct (m w) as [w1 [a | e]] eqn:Hrun.
  - intros Hrest. exact (R_trans _ _ _ (Hm _ _ _ Hrun) (Hk a _ _ _ Hrest)).
  - intros [= <- _]. exact (Hm _ _ _ Hrun).
Qed.

Lemma steps_tryCatch {A} (body : M DB A) (handler : Exn -> M DB A) :
  steps R body -> (forall e, steps R (handler e)) -> steps R (tryCatch body handler).
Proof.
  intros Hbody Hhandler w w' o. unfold tryCatch.
  destruct (body w) as [w1 [a | e]] eqn:Hrun.
  - intros [= <- _]. exact (Hbody _ _ _ Hrun).
  - intros Hrest. exact (R_trans _ _ _ (Hbody _ _ _ Hrun) (Hhandler e _ _ _ Hrest)).
Qed.

(** A step given by what it does to the world. *)
Lemma steps_prim {A} (m : M DB A) :
  (forall w, R w (fst (m w))) -> steps R m.
Proof. intros Hm w w' o Hrun. specialize (Hm w). now rewrite Hrun in Hm. Qed.

End Steps.

Section Relations.
Context {DB : Type}.

Lemma extendsBy_refl (P : Call -> Prop) (w : World DB) : extendsBy P w w.
Proof. exists []. split; [now rewrite app_nil_r | constructor]. Qed.

Lemma extendsBy_trans (P : Call -> Prop) (w1 w2 w3 : World DB) :
  extendsBy P w1 w2 -> extendsBy P w2 w3 -> extendsBy P w1 w3.
Proof.
  intros (a1 & H1 & P1) (a2 & H2 & P2). exists (a1 ++ a2)%list. split.
  - now rewrite H2, H1, app_assoc.
  - apply Forall_app. now split.
Qed.

Lemma extendsBy_call (P : Call -> Prop) (c : Call) (w w' : World DB) :
  P c -> calls w' = (calls w ++ [c])%list -> extendsBy P w w'.
Proof. intros Hc Hcalls. exists [c]. split; [exact Hcalls | now constructor]. Qed.

Lemma extendsBy_same (P : Call -> Prop) (w w' : World DB) :
  calls w' = calls w -> extendsBy P w w'.
Proof. intros Hcalls. exists []. split; [now rewrite app_nil_r | constructor]. Qed.

Lemma keepsContext_trans (w1 w2 w3 : World DB) :
  keepsContext w1 w2 -> keepsContext w2 w3 -> keepsContext w1 w3.
Proof. unfold keepsContext. congruence. Qed.

End Relations.

(** Walk a handler: binds and catch clauses by the rules, branches by
    cases, each primitive step by [prim]. *)
Ltac walk prim :=
  repeat first
    [ assumption
    | match goal with
      | known : forall _, steps _ _ |- steps _ _ => apply known
      | known : forall _ _, steps _ _ |- steps _ _ => apply known
      end
    | apply steps_ret; assumption
    | apply steps_settle; assumption
    | apply steps_throw; assumption
    | apply steps_query; assumption
    | apply steps_readWorld; assumption
    | apply steps_bind; [assumption | | intros ?]
    | apply steps_tryCatch; [assumption | | intros ?]
    | match goal with
      | |- steps _ (match ?x with _ => _ end) => destruct x
      | |- steps _ (let _ := _ in _) => cbv zeta
      end
    | apply steps_prim; intros ?; prim ].

Ltac prim_unfold :=
  unfold command, recordCall, consoleLog, write, setFinalMergedUsage,
    setGlobalStreamContext, drawUUID;
  try match goal with
      | |- context [let '(_, _) := ?x in _] => destruct x
      end;
  cbn.

(** ** What POST and the stream hand to [saveMessages] *)

Section SavedRows.
Context {DB : Type} `{Collaborators DB}.
Implicit Types (w : World DB) (s : UIStream).

Lemma toDBMessage_rows chatId createdAt (messages : list ChatMessage) :
  Forall (fun m => db_attachments m = [])
         (List.map (toDBMessage chatId createdAt) messages).
Proof. induction messages; cbn; constructor; [reflexivity | assumption]. Qed.

Ltac prim_rows :=
  prim_unfold;
  first [ apply extendsBy_same; reflexivity
        | eapply extendsBy_call; [| reflexivity]; cbn;
          first [ exact I
                | apply toDBMessage_rows
                | repeat constructor ] ].

Ltac walk_rows :=
  pose proof (@extendsBy_refl DB attachmentFree);
  pose proof (@extendsBy_trans DB attachmentFree);
  walk ltac:(prim_rows).

Lemma generateEmbedding_rows text :
  steps (extendsBy attachmentFree) (generateEmbedding text : M DB JsVal).
Proof. unfold generateEmbedding. walk_rows. Qed.

Lemma writeAll_rows chunks :
  steps (extendsBy attachmentFree) (writeAll chunks : M DB unit).
Proof. induction chunks as [| c rest IH]; cbn [writeAll]; walk_rows. Qed.

Lemma usageOnFinish_rows s usage :
  steps (extendsBy attachmentFree) (usageOnFinish s usage : M DB unit).
Proof. unfold usageOnFinish, getTokenlensCatalog. walk_rows. Qed.

Lemma execute_rows s :
  steps (extendsBy attachmentFree) (execute s : M DB unit).
Proof.
  pose proof generateEmbedding_rows. pose proof writeAll_rows.
  pose proof usageOnFinish_rows.
  unfold execute. walk_rows.
Qed.

Lemma streamOnFinish_rows s messages :
  steps (extendsBy attachmentFree) (streamOnFinish s messages : M DB unit).
Proof. unfold streamOnFinish. walk_rows. Qed.

Lemma runStream_rows s :
  steps (extendsBy attachmentFree) (runStream s : M DB unit).
Proof.
  pose proof execute_rows. pose proof streamOnFinish_rows.
  unfold runStream. walk_rows.
Qed.

Lemma POST_rows request :
  steps (extendsBy attachmentFree) (POST request : M DB Response).
Proof. unfold POST, appendAndStream. walk_rows. Qed.

(** C10. Run POST, then drain any stream in the world it leaves.  The
    call trace only grew, and every row of every [saveMessages] call
    added to it, the user's message as well as the messages saved when
    the stream finishes, has the empty attachment list, whatever the
    payload carried. *)
Theorem saved_messages_have_no_attachments request s w w1 w2 r o :
  POST request w = (w1, r) ->
  runStream s w1 = (w2, o) ->
  exists added,
    calls w2 = (calls w ++ added)%list /\
    forall rows row,
      In (CallSaveMessages rows) added -> In row rows -> db_attachments row = [].
Proof.
  intros Hpost Hstream.
  destruct (extendsBy_trans attachmentFree w w1 w2
              (POST_rows request w w1 r Hpost)
              (runStream_rows s w1 w2 o Hstream)) as (added & Hcalls & Hfree).
  exists added. split; [exact Hcalls |].
  intros rows row Hrows Hrow.
  rewrite Forall_forall in Hfree. apply list_elem_of_In in Hrows.
  specialize (Hfree _ Hrows). cbn in Hfree.
  rewrite Forall_forall in Hfree. apply Hfree. now apply list_elem_of_In.
Qed.

End SavedRows.

(** ** The writes made when the stream finishes *)

Section Finalisation.
Context {DB : Type} `{Collaborators DB}.
Implicit Types (w : World DB) (s : UIStream).

(** C7, amended.  When the assistant messages are saved, [onFinish]
    returns whatever the update of the last usage does: if there is a
    reconciled usage and its update throws, the error goes to the
    console as a warning and nowhere else.  (A throw of [saveMessages]
    itself is outside the try block and is not covered.) *)
Theorem last_usage_update_is_best_effort s (messages : list ChatMessage) w d :
  saveMessages (List.map (toDBMessage (us_chatId s) (clock w)) messages) (db w)
    = (d, Returned tt) ->
  exists w',
    streamOnFinish s messages w = (w', Returned tt) /\
    (forall context d' e,
        finalMergedUsage w = Some context ->
        updateChatLastContextById (us_chatId s) context d = (d', Thrown e) ->
        console w'
          = (console w ++
             [mkLogLine "warn" "Unable to persist last usage for chat" (Some e)])%list).
Proof.
  intros Hsave. unfold streamOnFinish. unfold_monad. cbn.
  rewrite Hsave. cbn.
  destruct (finalMergedUsage w) as [context |] eqn:Husage; cbn.
  - destruct (updateChatLastContextById (us_chatId s) context d)
      as [d' [[] | e]] eqn:Hupdate; cbn.
    + eexists. split; [reflexivity |].
      intros context' d'' e' [= <-]. rewrite Hupdate. discriminate.
    + eexists. split; [reflexivity |].
      intros context' d'' e' [= <-]. rewrite Hupdate.
      intros [= _ <-]. reflexivity.
  - eexists. split; [reflexivity |]. discriminate.
Qed.

Lemma POST_keepsContext request :
  steps keepsContext (POST request : M DB Response).
Proof.
  assert (Hrefl : forall w : World DB, keepsContext w w) by reflexivity.
  pose proof (@keepsContext_trans DB) as Htrans.
  unfold POST, appendAndStream.
  walk ltac:(prim_unfold; reflexivity).
Qed.

Lemma POST_streams_plainly request w w' body :
  POST request w = (w', Returned (StreamResponse body)) ->
  exists s, body = PlainStream s.
Proof.
  unfold POST, appendAndStream. unfold_monad.
  repeat match goal with
         | |- context [match ?x with _ => _ end] =>
             lazymatch x with
             | context [match _ with _ => _ end] => fail
             | _ => destruct x; cbn
             end
         end;
    intros Hrun; try discriminate Hrun;
    inversion Hrun; subst; eexists; reflexivity.
Qed.

(** C8, amended.  Whatever the environment holds, a streamed answer of
    POST is the plain stream, and POST leaves the cached stream context
    as it was: the lines that would serve the stream through the
    resumable-stream context are disabled.  [getStreamContext] itself,
    on an empty cache, returns and caches the context when its creation
    succeeds, and returns null when the creation throws an [Error],
    after one console line. *)
Theorem post_streams_plainly_whatever_the_environment request w :
  (forall w' body,
      POST request w = (w', Returned (StreamResponse body)) ->
      (exists s, body = PlainStream s) /\
      globalStreamContext w' = globalStreamContext w) /\
  (globalStreamContext w = None ->
   (forall context,
       createResumableStreamContext env = Returned context ->
       exists w', getStreamContext w = (w', Returned (Some context)) /\
                  globalStreamContext w' = Some context) /\
   (forall message,
       createResumableStreamContext env = Thrown (Error message) ->
       exists w' line, getStreamContext w = (w', Returned None) /\
                       console w' = (console w ++ [line])%list)).
Proof.
  split.
  - intros w' body Hrun. split.
    + exact (POST_streams_plainly request w w' body Hrun).
    + exact (POST_keepsContext request w w' _ Hrun).
  - intros Hempty. split.
    + intros context Hcreate. unfold getStreamContext. unfold_monad.
      rewrite Hempty. cbn. rewrite Hcreate. cbn.
      eexists. split; reflexivity.
    + intros message Hcreate. unfold getStreamContext. unfold_monad.
      rewrite Hempty. cbn. rewrite Hcreate. cbn.
      destruct (includes "REDIS_URL" message); cbn; rewrite Hempty;
        eexists _, _; split; reflexivity.
Qed.

End Finalisation.

(** ** The handlers on the scripted scenarios *)

Section Runs.
Import Memory Scenarios.

(** The similarity search is down: the stream, fresh when [execute]
    starts, holds the text delta and the finish chunk and nothing else. *)
Lemma stream_failure_witness :
  exists w',
    @execute _ (scripted searchDown) aliceStream MoreScenarios.worldStreaming
      = (w', Returned tt) /\
    dataStream w' = [TextDelta apology "uuid-2"; Finish].
Proof.
  destruct (@stream_failure_writes_unopened_text_delta Store (scripted searchDown)
              aliceStream MoreScenarios.worldStreaming)
    as (w' & Hrun & _ & Hfresh & _).
  - right. eexists _, _, _. split; vm_compute; reflexivity.
  - exists w'. split; [exact Hrun |]. apply Hfresh. reflexivity.
Defined.

(** The service rejects the key with a JSON body. *)
Lemma embedding_failure_witness :
  @generateEmbedding _ (scripted (withFetch (Returned invalidKeyResponse))) "Szukam perfum" world0
    = (withCall (CallFetch (embeddingsRequest "sk-test" "Szukam perfum")) world0,
       Thrown (Error ("Failed to generate embedding: " +:+
                      "OpenAI API error: " +:+ pretty 401 +:+ " " +:+
                      "Unauthorized" +:+ " - " +:+
                      stringified
                        (JObj [("error", JObj [("message", JStr "Incorrect API key")])])))).
Proof.
  assert (Hkey : "sk-test" <> "") by discriminate.
  destruct (@embedding_failures_wrapped_without_retry Store
              (scripted (withFetch (Returned invalidKeyResponse)))
              "Szukam perfum" world0 "sk-test" invalidKeyResponse
              eq_refl Hkey eq_refl)
    as [Hrejected _].
  apply Hrejected; try reflexivity. cbn. lia.
Defined.

(** C9 as stated fails: two gateways answer 502 with pages that are not
    JSON and differ, and the error the client throws is the same for
    both, with an empty object where the page would be: nothing of the
    body is in it. *)
Lemma unparsable_body_left_out :
  resp_ok badGatewayResponse = false /\
  resp_json badGatewayResponse
    = Thrown (Error "Unexpected token < in JSON at position 0") /\
  resp_json MoreScenarios.maintenanceResponse
    = Thrown (Error "Unexpected token M in JSON at position 0") /\
  snd (@generateEmbedding _ (scripted (withFetch (Returned badGatewayResponse)))
         "Szukam perfum" world0)
    = Thrown (Error "Failed to generate embedding: OpenAI API error: 502 Bad Gateway - {}") /\
  snd (@generateEmbedding _ (scripted (withFetch (Returned MoreScenarios.maintenanceResponse)))
         "Szukam perfum" world0)
    = Thrown (Error "Failed to generate embedding: OpenAI API error: 502 Bad Gateway - {}").
Proof. repeat split; vm_compute; reflexivity. Qed.

(** A body that is not JSON shows up as the empty object. *)
Example badGateway_message :
  snd (@generateEmbedding _ (scripted (withFetch (Returned badGatewayResponse))) "Szukam perfum" world0)
  = Thrown (Error "Failed to generate embedding: OpenAI API error: 502 Bad Gateway - {}").
Proof. vm_compute. reflexivity. Qed.

Example emptyData_message :
  snd (@generateEmbedding _ (scripted (withFetch (Returned emptyDataResponse))) "Szukam perfum" world0)
  = Thrown (Error "Failed to generate embedding: Failed to generate embedding: no embedding in response").
Proof. vm_compute. reflexivity. Qed.

Lemma saved_messages_witness :
  exists added,
    calls (fst (@runStream _ (scripted sunny) aliceStream
                  (fst (@POST _ (scripted sunny) (postTo "chat-alice") world0))))
      = (calls world0 ++ added)%list /\
    forall rows row,
      In (CallSaveMessages rows) added -> In row rows -> db_attachments row = [].
Proof.
  apply (@saved_messages_have_no_attachments Store (scripted sunny)
           (postTo "chat-alice") aliceStream world0
           (fst (@POST _ (scripted sunny) (postTo "chat-alice") world0))
           (fst (@runStream _ (scripted sunny) aliceStream
                   (fst (@POST _ (scripted sunny) (postTo "chat-alice") world0))))
           (snd (@POST _ (scripted sunny) (postTo "chat-alice") world0))
           (snd (@runStream _ (scripted sunny) aliceStream
                   (fst (@POST _ (scripted sunny) (postTo "chat-alice") world0)))));
    vm_compute; reflexivity.
Defined.

(** The two rows of that run: Alice's message and the assistant's. *)
Example sunny_saved_rows :
  savedRows (calls (fst (@runStream _ (scripted sunny) aliceStream
                           (fst (@POST _ (scripted sunny) (postTo "chat-alice") world0)))))
  = [mkDBMessage "chat-alice" "m9" "user" (msg_parts newMessage) [] 1700000000;
     mkDBMessage "chat-alice" "assistant-1" "assistant" [] [] 1700000000].
Proof. vm_compute. reflexivity. Qed.

(** The update of the last usage fails and [onFinish] returns, with the
    warning on the console. *)
Lemma last_usage_update_witness :
  exists w',
    @streamOnFinish _ (scripted updateFails) aliceStream [assistantMessage] worldWithUsage
      = (w', Returned tt) /\
    console w'
      = [mkLogLine "warn" "Unable to persist last usage for chat" (Some databaseError)].
Proof.
  destruct (@last_usage_update_is_best_effort Store (scripted updateFails)
              aliceStream [assistantMessage] worldWithUsage
              (fst (@saveMessages _ (scripted updateFails)
                      (List.map (toDBMessage "chat-alice" 1700000000) [assistantMessage])
                      store0)))
    as (w' & Hrun & Hlog); [reflexivity |].
  exists w'. split; [exact Hrun |].
  apply (Hlog rawUsage
           (fst (@saveMessages _ (scripted updateFails)
                   (List.map (toDBMessage "chat-alice" 1700000000) [assistantMessage])
                   store0))
           databaseError); reflexivity.
Defined.

(** C7 as stated fails: [saveMessages] throws when the stream finishes,
    and the error leaves [onFinish]; nothing is logged and the update of
    the last usage is never attempted. *)
Lemma failed_save_leaves_onFinish :
  snd (@streamOnFinish _ (scripted saveFails) aliceStream [assistantMessage] worldWithUsage)
    = Thrown databaseError /\
  console (fst (@streamOnFinish _ (scripted saveFails) aliceStream
                  [assistantMessage] worldWithUsage)) = [] /\
  calls (fst (@streamOnFinish _ (scripted saveFails) aliceStream
                [assistantMessage] worldWithUsage))
    = [CallSaveMessages
         (List.map (toDBMessage "chat-alice" 1700000000) [assistantMessage])].
Proof. repeat split; vm_compute; reflexivity. Qed.

Lemma post_streams_plainly_witness :
  (exists s, PlainStream aliceStream = PlainStream s) /\
  globalStreamContext (fst (@POST _ (scripted redisPresent) (postTo "chat-alice") world0))
    = globalStreamContext world0.
Proof.
  apply (proj1 (@post_streams_plainly_whatever_the_environment Store
                  (scripted redisPresent) (postTo "chat-alice") world0)).
  vm_compute. reflexivity.
Defined.

(** C8 as stated fails: the connection string is set and the context can
    be created, and POST answers with the plain stream, not with one
    served through the context, and never asks for the context. *)
Lemma redis_present_plain_stream :
  REDIS_URL (@env _ (scripted redisPresent)) = Some "redis://localhost:6379" /\
  @createResumableStreamContext _ (scripted redisPresent) (@env _ (scripted redisPresent))
    = Returned (mkCtx "redis") /\
  snd (@POST _ (scripted redisPresent) (postTo "chat-alice") world0)
    = Returned (StreamResponse (PlainStream aliceStream)) /\
  (forall streamId s,
      snd (@POST _ (scripted redisPresent) (postTo "chat-alice") world0)
        <> Returned (StreamResponse (ResumableStream streamId s))) /\
  globalStreamContext (fst (@POST _ (scripted redisPresent) (postTo "chat-alice") world0))
    = None.
Proof.
  split; [reflexivity |]. split; [reflexivity |].
  assert (Hrun : snd (@POST _ (scripted redisPresent) (postTo "chat-alice") world0)
                 = Returned (StreamResponse (PlainStream aliceStream)))
    by (vm_compute; reflexivity).
  split; [exact Hrun |]. split; [| vm_compute; reflexivity].
  intros streamId s. rewrite Hrun. discriminate.
Qed.

End Runs.

(** ** POST beyond its guards *)

(** Split on every test a handler makes, innermost first, keeping what
    each test found. *)
Ltac explore :=
  repeat match goal with
         | |- context [match ?x with _ => _ end] =>
             lazymatch x with
             | context [match _ with _ => _ end] => fail
             | _ => destruct x eqn:?; cbn
             end
         end.

(** Name the calls a run added to the trace. *)
Ltac name_added :=
  cbn; rewrite <- ?app_assoc; cbn;
  first [ exists []; split; [now rewrite app_nil_r |]
        | eexists; split; [reflexivity |] ].

Lemma storeWrites_app (cs added : list Call) :
  storeWrites (cs ++ added) = (storeWrites cs ++ storeWrites added)%list.
Proof. unfold storeWrites. apply List.filter_app. Qed.

Section PostBehaviour.
Context {DB : Type} `{Collaborators DB}.
Implicit Types (w : World DB) (request : Request) (b : PostRequestBody).

(** POST never throws: whatever the collaborators do, it returns a
    response. *)
Theorem post_always_answers request w :
  exists w' response, POST request w = (w', Returned response).
Proof.
  unfold POST, appendAndStream. unfold_monad.
  explore; eexists _, _; reflexivity.
Qed.

(** A body that does not parse is answered before anything else is asked:
    the world is as it was, whatever [auth] would have said. *)
Theorem post_malformed_body_is_bad_request request w :
  parsedBody request = None ->
  POST request w = (w, Returned (ErrorResponse "bad_request:api")).
Proof. intros Hb. unfold POST. rewrite Hb. reflexivity. Qed.

(** A throw of [auth], of the count query or of the chat lookup ends in the
    catch clause: the response carries the code of an application error
    and [offline:chat] for anything else, which alone is logged; the store
    and the trace are as they were. *)
Theorem post_maps_thrown_errors request b w e :
  parsedBody request = Some b ->
  auth = Thrown e \/
  (exists session user,
      auth = Returned (Some session) /\
      session_user session = Some user /\
      (getMessageCountByUserId (user_id user) 24 (db w) = Thrown e \/
       exists n,
         getMessageCountByUserId (user_id user) 24 (db w) = Returned n /\
         n <= entitlement (user_type user) /\
         getChatById (body_id b) (db w) = Thrown e)) ->
  POST request w = (caught e w, Returned (ErrorResponse (codeOf e))).
Proof.
  intros Hb Hthrown. run_handler (@POST). rewrite Hb.
  destruct Hthrown as [Hauth | (session & user & Hauth & Huser & Hread)].
  - rewrite Hauth. cbn. destruct e; reflexivity.
  - rewrite Hauth. cbn. rewrite Huser.
    destruct Hread as [Hcount | (n & Hcount & Hle & Hchat)].
    + rewrite Hcount. cbn. destruct e; reflexivity.
    + rewrite Hcount.
      destruct (Z.ltb_spec (entitlement (user_type user)) n); [lia |].
      rewrite Hchat. cbn. destruct e; reflexivity.
Qed.

(** A conversation POST has not seen: the writes of the store it makes
    are the chat row in the caller's name with the generated title, then
    the user's row, then the stream id, in that order and no other, and
    the answer is the stream for that chat, model and message text.  The
    requests of the embedding client are no writes of the store and are
    left out of the account. *)
Theorem post_new_conversation request b w session user n title d1 d2 d3 :
  parsedBody request = Some b ->
  auth = Returned (Some session) ->
  session_user session = Some user ->
  getMessageCountByUserId (user_id user) 24 (db w) = Returned n ->
  n <= entitlement (user_type user) ->
  getChatById (body_id b) (db w) = Returned None ->
  generateTitleFromUserMessage (body_message b) = Returned title ->
  saveChat (newChat b user title) (db w) = (d1, Returned tt) ->
  saveMessages [userRow b (clock w)] d1 = (d2, Returned tt) ->
  createStreamId (generateUUID (uuidsDrawn w)) (body_id b) d2 = (d3, Returned tt) ->
  exists w',
    POST request w = (w', Returned (StreamResponse (PlainStream (streamOf b)))) /\
    db w' = d3 /\
    storeWrites (calls w')
      = (storeWrites (calls w) ++
         [CallSaveChat (newChat b user title);
          CallSaveMessages [userRow b (clock w)];
          CallCreateStreamId (generateUUID (uuidsDrawn w)) (body_id b)])%list /\
    finalMergedUsage w' = None /\
    console w' = console w.
Proof.
  intros Hb Hauth Huser Hcount Hle Hchat Htitle Hsave Hrow Hstream.
  unfold POST, appendAndStream, newChat in *. unfold_monad. cbn.
  rewrite Hb, Hauth. cbn. rewrite Huser, Hcount.
  destruct (Z.ltb_spec (entitlement (user_type user)) n); [lia |].
  rewrite Hchat, Htitle. cbn. rewrite Hsave. cbn. rewrite Hrow. cbn.
  rewrite Hstream. cbn.
  eexists. split; [reflexivity |]. cbn.
  rewrite !storeWrites_app. cbn. rewrite <- !app_assoc. repeat split.
Qed.

(** A conversation of the caller's own: no chat row is written and no
    title generated; the user's row and then the stream id are the two
    writes of the store, the requests of the embedding client left out of
    the account. *)
Theorem post_existing_conversation request b w session user n c history d1 d2 :
  parsedBody request = Some b ->
  auth = Returned (Some session) ->
  session_user session = Some user ->
  getMessageCountByUserId (user_id user) 24 (db w) = Returned n ->
  n <= entitlement (user_type user) ->
  getChatById (body_id b) (db w) = Returned (Some c) ->
  chat_userId c = user_id user ->
  getMessagesByChatId (body_id b) (db w) = Returned history ->
  saveMessages [userRow b (clock w)] (db w) = (d1, Returned tt) ->
  createStreamId (generateUUID (uuidsDrawn w)) (body_id b) d1 = (d2, Returned tt) ->
  exists w',
    POST request w = (w', Returned (StreamResponse (PlainStream (streamOf b)))) /\
    db w' = d2 /\
    storeWrites (calls w')
      = (storeWrites (calls w) ++
         [CallSaveMessages [userRow b (clock w)];
          CallCreateStreamId (generateUUID (uuidsDrawn w)) (body_id b)])%list /\
    finalMergedUsage w' = None.
Proof.
  intros Hb Hauth Huser Hcount Hle Hchat Hown Hhistory Hrow Hstream.
  unfold POST, appendAndStream. unfold_monad. cbn.
  rewrite Hb, Hauth. cbn. rewrite Huser, Hcount.
  destruct (Z.ltb_spec (entitlement (user_type user)) n); [lia |].
  rewrite Hchat, Hown, String.eqb_refl. cbn. rewrite Hhistory. cbn.
  rewrite Hrow. cbn. rewrite Hstream. cbn.
  eexists. split; [reflexivity |]. cbn.
  rewrite !storeWrites_app. cbn. rewrite <- !app_assoc. repeat split.
Qed.

(** POST does not undo: when the chat row of a new conversation is
    written and saving the user's message then throws, the answer is the
    error and the chat row stays written. *)
Theorem post_failed_save_keeps_new_chat request b w session user n title d1 d2 e :
  parsedBody request = Some b ->
  auth = Returned (Some session) ->
  session_user session = Some user ->
  getMessageCountByUserId (user_id user) 24 (db w) = Returned n ->
  n <= entitlement (user_type user) ->
  getChatById (body_id b) (db w) = Returned None ->
  generateTitleFromUserMessage (body_message b) = Returned title ->
  saveChat (newChat b user title) (db w) = (d1, Returned tt) ->
  saveMessages [userRow b (clock w)] d1 = (d2, Thrown e) ->
  exists w',
    POST request w = (w', Returned (ErrorResponse (codeOf e))) /\
    db w' = d2 /\
    calls w'
      = (calls w ++ [CallSaveChat (newChat b user title);
                     CallSaveMessages [userRow b (clock w)]])%list.
Proof.
  intros Hb Hauth Huser Hcount Hle Hchat Htitle Hsave Hrow.
  unfold POST, appendAndStream, newChat in *. unfold_monad. cbn.
  rewrite Hb, Hauth. cbn. rewrite Huser, Hcount.
  destruct (Z.ltb_spec (entitlement (user_type user)) n); [lia |].
  rewrite Hchat, Htitle. cbn. rewrite Hsave. cbn. rewrite Hrow. cbn.
  destruct e; cbn; (eexists; split; [reflexivity |]); cbn;
    rewrite <- !app_assoc; repeat split.
Qed.

End PostBehaviour.

Section PostWrites.
Context {DB : Type} `{Collaborators DB}.
Implicit Types (w : World DB) (request : Request) (b : PostRequestBody).

(** Every run of POST, however it ends, only adds to the trace, and among
    what it adds the writes of the store are at most three, each for the
    chat the body names: POST never deletes a chat and never updates a
    usage.  A chat row is written only for a signed-in caller, in that
    caller's name, and only when the lookup found no chat with that id.
    The requests of the embedding client are no writes of the store and
    are left out of the account. *)
Theorem post_writes_only_for_its_chat request b w w' o :
  parsedBody request = Some b ->
  POST request w = (w', o) ->
  exists added,
    calls w' = (calls w ++ added)%list /\
    Forall (postWrite b) (storeWrites added) /\
    (length (storeWrites added) <= 3)%nat /\
    forall ch,
      In (CallSaveChat ch) added ->
      exists session user,
        auth = Returned (Some session) /\
        session_user session = Some user /\
        chat_userId ch = user_id user /\
        getChatById (body_id b) (db w) = Returned None.
Proof.
  intros Hb. unfold POST, appendAndStream. unfold_monad. rewrite Hb.
  explore; intros [= <- <-]; name_added;
    (split; [repeat constructor; cbn; eauto |]);
    (split; [cbn; lia |]);
    intros ch Hin; cbn in Hin;
    repeat match goal with
           | Hin : _ \/ _ |- _ => destruct Hin as [Hin | Hin]
           end;
    try contradiction; try discriminate Hin;
    injection Hin as <-; subst; cbn;
    match goal with
    | Hbind : option_bind _ _ _ ?a = Some _ |- _ =>
        destruct a; [| discriminate Hbind]; cbn in Hbind
    end;
    eauto 10.
Qed.

End PostWrites.

(** ** DELETE *)

Section DeleteBehaviour.
Context {DB : Type} `{Collaborators DB}.
Implicit Types (w : World DB) (request : Request).

(** Without an id DELETE answers [bad_request:api], and with an id and no
    signed-in user [unauthorized:chat]; in both cases before the store is
    read, leaving the world as it was. *)
Theorem delete_rejects_before_store request w :
  (searchId request = None \/ searchId request = Some "" ->
   DELETE request w = (w, Returned (ErrorResponse "bad_request:api"))) /\
  (forall id session,
      searchId request = Some id ->
      id <> "" ->
      auth = Returned session ->
      session ≫= session_user = None ->
      DELETE request w = (w, Returned (ErrorResponse "unauthorized:chat"))).
Proof.
  split.
  - intros [Hid | Hid]; unfold DELETE; rewrite Hid; reflexivity.
  - intros id session Hid Hne Hauth Hnone. run_handler (@DELETE).
    rewrite Hid. destruct id as [| a id']; [contradiction |].
    rewrite Hauth. cbn. rewrite Hnone. reflexivity.
Qed.

(** The owner's DELETE makes one call, the deletion of that chat, and
    answers 200 with the row the store hands back. *)
Theorem delete_own_conversation request id w session user c d deleted :
  searchId request = Some id ->
  id <> "" ->
  auth = Returned (Some session) ->
  session_user session = Some user ->
  getChatById id (db w) = Returned (Some c) ->
  chat_userId c = user_id user ->
  deleteChatById id (db w) = (d, Returned deleted) ->
  exists w',
    DELETE request w = (w', Returned (JsonResponse 200 deleted)) /\
    db w' = d /\
    calls w' = (calls w ++ [CallDeleteChatById id])%list.
Proof.
  intros Hid Hne Hauth Huser Hchat Hown Hdelete. run_handler (@DELETE).
  rewrite Hid. destruct id as [| a id']; [contradiction |].
  rewrite Hauth. cbn. rewrite Huser, Hchat. cbn.
  rewrite Hown, String.eqb_refl. cbn. rewrite Hdelete. cbn.
  eexists. repeat split.
Qed.

(** DELETE has no catch clause: a throw of [auth], of the chat lookup or
    of the deletion leaves the handler as it is. *)
Theorem delete_propagates_throws request id w e :
  searchId request = Some id ->
  id <> "" ->
  auth = Thrown e \/
  (exists session user,
      auth = Returned (Some session) /\
      session_user session = Some user /\
      (getChatById id (db w) = Thrown e \/
       exists c d,
         getChatById id (db w) = Returned (Some c) /\
         chat_userId c = user_id user /\
         deleteChatById id (db w) = (d, Thrown e))) ->
  exists w', DELETE request w = (w', Thrown e).
Proof.
  intros Hid Hne Hthrown. run_handler (@DELETE).
  rewrite Hid. destruct id as [| a id']; [contradiction |].
  destruct Hthrown as [Hauth | (session & user & Hauth & Huser & Hstore)].
  - rewrite Hauth. cbn. eexists. reflexivity.
  - rewrite Hauth. cbn. rewrite Huser.
    destruct Hstore as [Hchat | (c & d & Hchat & Hown & Hdelete)].
    + rewrite Hchat. cbn. eexists. reflexivity.
    + rewrite Hchat. cbn. rewrite Hown, String.eqb_refl. cbn.
      rewrite Hdelete. cbn. eexists. reflexivity.
Qed.

(** Whatever DELETE answers, it either leaves the store and the trace as
    they were, or it made the one deletion call for the id it was given,
    and then the caller was signed in and the chat found under that id
    was the caller's. *)
Theorem delete_touches_only_own_chats request w w' o :
  DELETE request w = (w', o) ->
  w' = w \/
  exists id session user c,
    searchId request = Some id /\
    auth = Returned (Some session) /\
    session_user session = Some user /\
    getChatById id (db w) = Returned (Some c) /\
    chat_userId c = user_id user /\
    calls w' = (calls w ++ [CallDeleteChatById id])%list /\
    db w' = fst (deleteChatById id (db w)).
Proof.
  unfold DELETE, notOwnedBy. unfold_monad.
  explore; intros [= <- <-]; try (left; reflexivity); right;
    match goal with
    | Hbind : option_bind _ _ _ ?a = Some _ |- _ =>
        destruct a; [| discriminate Hbind]; cbn in Hbind
    end;
    match goal with
    | Heq : negb (String.eqb _ _) = false |- _ =>
        apply negb_false_iff, String.eqb_eq in Heq
    end;
    match goal with
    | Hid : searchId request = Some ?id |- _ => exists id
    end;
    eexists _, _, _; cbn;
    match goal with
    | Hdel : deleteChatById _ _ = _ |- _ => rewrite Hdel
    end;
    eauto 10.
Qed.

End DeleteBehaviour.

(** ** The stream context and the token catalogue *)

Section Caches.
Context {DB : Type} `{Collaborators DB}.
Implicit Types (w : World DB).

(** The context is created once: the call that creates it caches it, and
    a call on a filled cache returns what is cached and changes nothing. *)
Theorem stream_context_created_once w context :
  globalStreamContext w = None ->
  createResumableStreamContext env = Returned context ->
  getStreamContext w = (withContext context w, Returned (Some context)) /\
  getStreamContext (withContext context w)
    = (withContext context w, Returned (Some context)).
Proof.
  intros Hempty Hcreate. unfold getStreamContext, withContext. unfold_monad.
  rewrite Hempty. cbn. rewrite Hcreate. cbn. split; reflexivity.
Qed.

(** A creation that throws is not remembered.  The call returns null
    after one console line, an information line when the message names
    REDIS_URL and the error itself otherwise, and the next call tries and
    logs again. *)
Theorem stream_context_failure_is_not_cached w message :
  globalStreamContext w = None ->
  createResumableStreamContext env = Thrown (Error message) ->
  getStreamContext w = (withLine (contextFailureLine message) w, Returned None) /\
  getStreamContext (withLine (contextFailureLine message) w)
    = (withLine (contextFailureLine message)
         (withLine (contextFailureLine message) w), Returned None).
Proof.
  intros Hempty Hcreate.
  unfold getStreamContext, withLine, contextFailureLine. unfold_monad.
  cbn. rewrite Hempty. cbn. rewrite Hcreate. cbn.
  destruct (includes "REDIS_URL" message); cbn; rewrite Hempty; split; reflexivity.
Qed.

(** The catalogue fetch never throws: a catalogue comes back as it is, and
    a failed fetch comes back as undefined after one warning. *)
Theorem catalog_fetch_never_throws w :
  (forall catalog,
      fetchModels = Returned catalog ->
      getTokenlensCatalog w = (w, Returned catalog)) /\
  (forall e,
      fetchModels = Thrown e ->
      getTokenlensCatalog w
        = (withLine (mkLogLine "warn"
                       "TokenLens: catalog fetch failed, using default catalog"
                       (Some e)) w,
           Returned JUndefined)).
Proof.
  unfold getTokenlensCatalog, withLine. unfold_monad.
  split; intros x Hfetch; rewrite Hfetch; reflexivity.
Qed.

End Caches.

(** ** The embedding client beyond its failures *)

Section EmbeddingClient.
Context {DB : Type} `{Collaborators DB}.
Implicit Types (w : World DB) (text : string).

Lemma find_after_others (name : string) (v : JsVal) before after :
  Forall (fun kv : string * JsVal => fst kv <> name) before ->
  List.find (fun kv => String.eqb (fst kv) name) (before ++ (name, v) :: after)
    = Some (name, v).
Proof.
  induction 1 as [| [k x] before Hk _ IH]; cbn.
  - now rewrite String.eqb_refl.
  - cbn in Hk. destruct (String.eqb_spec k name); [contradiction | exact IH].
Qed.

(** Without an API key, unset or empty, the client throws the wrapped
    configuration error and makes no request. *)
Theorem embedding_needs_api_key text w :
  OPENAI_API_KEY env = None \/ OPENAI_API_KEY env = Some "" ->
  generateEmbedding text w
    = (w, Thrown (Error ("Failed to generate embedding: " +:+
                         "OPENAI_API_KEY is not set"))).
Proof.
  intros [Hkey | Hkey]; unfold generateEmbedding; unfold_monad;
    rewrite Hkey; reflexivity.
Qed.

(** An ok response whose body has a [data] array whose first entry has a
    truthy [embedding] gives back that value as it is, whatever else the
    body and the entry hold and whatever its length, after one request. *)
Theorem embedding_returned_from_first_entry
    text w apiKey response before after first more rest v :
  OPENAI_API_KEY env = Some apiKey ->
  apiKey <> "" ->
  fetch (embeddingsRequest apiKey text) = Returned response ->
  resp_ok response = true ->
  resp_json response
    = Returned (JObj (before ++
                      ("data", JArr (JObj (first ++ ("embedding", v) :: more) :: rest))
                      :: after)) ->
  Forall (fun kv : string * JsVal => fst kv <> "data") before ->
  Forall (fun kv : string * JsVal => fst kv <> "embedding") first ->
  truthy v = true ->
  generateEmbedding text w
    = (withCall (CallFetch (embeddingsRequest apiKey text)) w, Returned v).
Proof.
  intros Hkey Hne Hfetch Hok Hjson Hbefore Hfirst Hv.
  unfold generateEmbedding, withCall. unfold_monad.
  rewrite Hkey. destruct apiKey as [| a key]; [contradiction |].
  cbn. rewrite Hfetch. cbn. rewrite Hok. cbn. rewrite Hjson. cbn.
  rewrite (find_after_others "data" _ before after Hbefore). cbn.
  rewrite (find_after_others "embedding" v first more Hfirst). cbn.
  rewrite Hv. reflexivity.
Qed.

(** What goes wrong on the way is wrapped with its own message: a throw of
    [fetch], a throw of [response.json()] on an ok response, and the
    TypeError of reading [data] off a body that is JSON null. *)
Theorem embedding_transport_failures_wrapped text w apiKey :
  OPENAI_API_KEY env = Some apiKey ->
  apiKey <> "" ->
  (forall e,
      fetch (embeddingsRequest apiKey text) = Thrown e ->
      generateEmbedding text w
        = (withCall (CallFetch (embeddingsRequest apiKey text)) w,
           Thrown (Error ("Failed to generate embedding: " +:+ exnMessage e)))) /\
  (forall response e,
      fetch (embeddingsRequest apiKey text) = Returned response ->
      resp_ok response = true ->
      resp_json response = Thrown e ->
      generateEmbedding text w
        = (withCall (CallFetch (embeddingsRequest apiKey text)) w,
           Thrown (Error ("Failed to generate embedding: " +:+ exnMessage e)))) /\
  (forall response,
      fetch (embeddingsRequest apiKey text) = Returned response ->
      resp_ok response = true ->
      resp_json response = Returned JNull ->
      exists message,
        generateEmbedding text w
          = (withCall (CallFetch (embeddingsRequest apiKey text)) w,
             Thrown (Error ("Failed to generate embedding: " +:+ message)))).
Proof.
  intros Hkey Hne. destruct apiKey as [| a key]; [contradiction |].
  split; [| split].
  - intros e Hfetch. unfold generateEmbedding, withCall. unfold_monad.
    rewrite Hkey. cbn. rewrite Hfetch. reflexivity.
  - intros response e Hfetch Hok Hjson.
    unfold generateEmbedding, withCall. unfold_monad.
    rewrite Hkey. cbn. rewrite Hfetch. cbn. rewrite Hok. cbn.
    rewrite Hjson. reflexivity.
  - intros response Hfetch Hok Hjson.
    unfold generateEmbedding, withCall. unfold_monad.
    rewrite Hkey. cbn. rewrite Hfetch. cbn. rewrite Hok. cbn.
    rewrite Hjson. cbn. eexists. reflexivity.
Qed.

End EmbeddingClient.

(** ** The streaming phase when it succeeds *)

Section StreamPhase.
Context {DB : Type} `{Collaborators DB}.
Implicit Types (w : World DB) (s : UIStream) (usage : Usage).

(** With a model id, a catalogue and a summary, the stored usage reads as
    the spread [{...usage, ...summary, modelId}]: the model id under its
    key, and under every other key the summary's value where the summary
    has one and the raw value otherwise. *)
Theorem enriched_usage_reads_as_the_spread s usage w model catalog (summary : Usage) :
  fetchModels = Returned catalog ->
  truthy catalog = true ->
  languageModel (us_selectedChatModel s) = Returned model ->
  truthy (modelId model) = true ->
  getUsage (modelId model) usage catalog = Returned summary ->
  exists w' (merged : Usage),
    usageOnFinish s usage w = (w', Returned tt) /\
    finalMergedUsage w' = Some merged /\
    dataStream w' = (dataStream w ++ [DataUsage merged])%list /\
    console w' = console w /\
    merged !! "modelId" = Some (modelId model) /\
    forall key,
      key <> "modelId" ->
      merged !! key = match summary !! key with
                      | Some v => Some v
                      | None => usage !! key
                      end.
Proof.
  intros Hcat Htruthy Hmodel Hid Hsum.
  unfold usageOnFinish, getTokenlensCatalog. unfold_monad.
  rewrite Hcat. cbn. rewrite Hmodel. cbn. rewrite Hid. cbn.
  rewrite Htruthy. cbn. rewrite Hsum. cbn.
  eexists _, _. repeat split.
  - apply lookup_insert_eq.
  - intros key Hkey. rewrite lookup_insert_ne by congruence.
    rewrite lookup_union. destruct (summary !! key), (usage !! key); reflexivity.
Qed.

Lemma writeAll_run chunks w :
  writeAll chunks w = (withChunks chunks w, Returned tt).
Proof.
  revert w. induction chunks as [| c rest IH]; intros w.
  - unfold withChunks. cbn. unfold_monad. rewrite app_nil_r.
    destruct w; reflexivity.
  - cbn [writeAll]. unfold_monad. cbn. rewrite IH.
    unfold withChunks. cbn. rewrite <- app_assoc. reflexivity.
Qed.

(** The reconciler run: what it leaves in the world. *)
Lemma usageOnFinish_run s usage w :
  exists w' (merged : Usage),
    usageOnFinish s usage w = (w', Returned tt) /\
    finalMergedUsage w' = Some merged /\
    dataStream w' = (dataStream w ++ [DataUsage merged])%list /\
    dom usage ⊆ dom merged /\
    db w' = db w /\ calls w' = calls w.
Proof.
  unfold usageOnFinish, getTokenlensCatalog. unfold_monad.
  explore; eexists _, _; cbn; repeat split; try reflexivity.
  rewrite dom_insert, dom_union. set_solver.
Qed.

(** [execute] on the path where nothing throws. *)
Lemma execute_run s w w1 v perfumes model :
  generateEmbedding (us_userMessageText s) w = (w1, Returned v) ->
  searchPerfumesByEmbedding v 5 (db w1) = Returned perfumes ->
  languageModel (us_selectedChatModel s) = Returned model ->
  exists w2,
    execute s w = (w2, Returned tt) /\
    db w2 = db w1 /\ calls w2 = calls w1 /\
    match snd (streamText model (systemPrompt perfumes) (us_userMessageText s)) with
    | None =>
        dataStream w2
          = (dataStream w1 ++
             fst (streamText model (systemPrompt perfumes) (us_userMessageText s)))%list /\
        finalMergedUsage w2 = finalMergedUsage w1
    | Some usage =>
        exists merged : Usage,
          dataStream w2
            = (dataStream w1 ++
               fst (streamText model (systemPrompt perfumes) (us_userMessageText s)) ++
               [DataUsage merged])%list /\
          finalMergedUsage w2 = Some merged /\
          dom usage ⊆ dom merged
    end.
Proof.
  intros Hemb Hsearch Hmodel. unfold execute.
  unfold tryCatch, mbind, M_bind, bind, settle, query.
  rewrite Hemb, Hsearch, Hmodel. cbn.
  destruct (streamText model (systemPrompt perfumes) (us_userMessageText s))
    as [chunks [usage |]]; cbn; rewrite writeAll_run.
  - destruct (usageOnFinish_run s usage (withChunks chunks w1))
      as (w2 & merged & Hrun & Hstored & Hstream & Hdom & Hdb & Hcalls).
    rewrite Hrun. exists w2. split; [reflexivity |].
    split; [exact Hdb |]. split; [exact Hcalls |].
    exists merged. rewrite Hstream. cbn. rewrite <- app_assoc. repeat split; assumption.
  - eexists. split; [reflexivity |]. cbn. repeat split.
Qed.

(** When the embedding, the search and the provider answer, the completion
    is asked for with the prompt of the rows found and the user's text,
    its chunks are relayed in order, and when the generation finishes one
    usage chunk follows; there is no apology, and neither the store nor
    the trace changes after the embedding request. *)
Theorem execute_relays_the_completion s w w1 v perfumes model :
  generateEmbedding (us_userMessageText s) w = (w1, Returned v) ->
  searchPerfumesByEmbedding v 5 (db w1) = Returned perfumes ->
  languageModel (us_selectedChatModel s) = Returned model ->
  exists w2,
    execute s w = (w2, Returned tt) /\
    db w2 = db w1 /\ calls w2 = calls w1 /\
    match snd (streamText model (systemPrompt perfumes) (us_userMessageText s)) with
    | None =>
        dataStream w2
          = (dataStream w1 ++
             fst (streamText model (systemPrompt perfumes) (us_userMessageText s)))%list /\
        finalMergedUsage w2 = finalMergedUsage w1
    | Some usage =>
        exists merged : Usage,
          dataStream w2
            = (dataStream w1 ++
               fst (streamText model (systemPrompt perfumes) (us_userMessageText s)) ++
               [DataUsage merged])%list /\
          finalMergedUsage w2 = Some merged /\
          dom usage ⊆ dom merged
    end.
Proof.
  intros Hemb Hsearch Hmodel.
  destruct (execute_run s w w1 v perfumes model Hemb Hsearch Hmodel)
    as (w2 & Hrun & Hrest).
  exists w2. split; [exact Hrun | exact Hrest].
Qed.

Lemma onlyFetched_refl w : onlyFetched w w.
Proof. repeat split. apply extendsBy_refl. Qed.

Lemma onlyFetched_trans (w1 w2 w3 : World DB) :
  onlyFetched w1 w2 -> onlyFetched w2 w3 -> onlyFetched w1 w3.
Proof.
  intros (Hd1 & Hc1 & Ht1 & He1) (Hd2 & Hc2 & Ht2 & He2).
  repeat split; try congruence.
  exact (extendsBy_trans isFetchCall w1 w2 w3 He1 He2).
Qed.

Ltac prim_fetched :=
  prim_unfold; repeat split;
  first [ apply extendsBy_same; reflexivity
        | eapply extendsBy_call; [| reflexivity]; exact I ].

Lemma execute_onlyFetched s : steps onlyFetched (execute s : M DB unit).
Proof.
  pose proof onlyFetched_refl. pose proof onlyFetched_trans.
  assert (Hwrite : forall chunks, steps onlyFetched (writeAll chunks : M DB unit)).
  { induction chunks as [| c rest IH]; cbn [writeAll]; walk ltac:(prim_fetched). }
  unfold execute, generateEmbedding, usageOnFinish, getTokenlensCatalog.
  walk ltac:(prim_fetched).
Qed.

(** [execute] never throws, whatever fails inside it, and all it does
    beyond the process is fetch: the store, the cached stream context and
    the call trace apart from fetches are as they were. *)
Theorem execute_always_returns_and_only_fetches s w :
  exists w',
    execute s w = (w', Returned tt) /\
    db w' = db w /\
    exists added,
      calls w' = (calls w ++ added)%list /\ Forall isFetchCall added.
Proof.
  assert (Hreturns : exists w', execute s w = (w', Returned tt)).
  { unfold execute. unfold tryCatch at 1.
    match goal with
    | |- context [match ?body with _ => _ end] =>
        destruct body as [w1 [[] | e]]
    end; [eexists; reflexivity |].
    unfold_monad. cbn. eexists. reflexivity. }
  destruct Hreturns as [w' Hrun]. exists w'. split; [exact Hrun |].
  destruct (execute_onlyFetched s w w' _ Hrun) as (Hdb & _ & _ & Hadded).
  split; [exact Hdb | exact Hadded].
Qed.

End StreamPhase.

(** ** The end of the stream *)

Section StreamEnd.
Context {DB : Type} `{Collaborators DB}.
Implicit Types (w : World DB) (s : UIStream).

(** [onFinish] of the stream once the save has gone through. *)
Lemma streamOnFinish_calls s (messages : list ChatMessage) w d :
  saveMessages (finishRows s messages w) (db w) = (d, Returned tt) ->
  exists w',
    streamOnFinish s messages w = (w', Returned tt) /\
    calls w'
      = (calls w ++
         CallSaveMessages (finishRows s messages w) ::
         match finalMergedUsage w with
         | Some usage => [CallUpdateChatLastContextById (us_chatId s) usage]
         | None => []
         end)%list.
Proof.
  intros Hsave. unfold streamOnFinish, finishRows in *. unfold_monad. cbn.
  rewrite Hsave. cbn.
  destruct (finalMergedUsage w) as [usage |]; cbn.
  - destruct (updateChatLastContextById (us_chatId s) usage d) as [d' [[] | e]];
      cbn; (eexists; split; [reflexivity |]; cbn;
            rewrite <- ?app_assoc; reflexivity).
  - eexists. split; reflexivity.
Qed.

(** When the stream finishes and the save goes through: one row per
    message, in order, with the id, role and parts of the message and the
    chat of the stream, is handed to [saveMessages], also when there is no
    message at all; the last usage is then updated with the reconciled
    usage if there is one, and not asked for otherwise.  The update is in
    the trace whether or not it went through. *)
Theorem stream_finish_saves_then_updates s (messages : list ChatMessage) w d :
  saveMessages (finishRows s messages w) (db w) = (d, Returned tt) ->
  exists w',
    streamOnFinish s messages w = (w', Returned tt) /\
    calls w'
      = (calls w ++
         CallSaveMessages (finishRows s messages w) ::
         match finalMergedUsage w with
         | Some usage => [CallUpdateChatLastContextById (us_chatId s) usage]
         | None => []
         end)%list /\
    List.map db_id (finishRows s messages w) = List.map msg_id messages /\
    List.map db_role (finishRows s messages w) = List.map msg_role messages /\
    List.map db_parts (finishRows s messages w) = List.map msg_parts messages /\
    Forall (fun row => db_chatId row = us_chatId s) (finishRows s messages w).
Proof.
  intros Hsave.
  destruct (streamOnFinish_calls s messages w d Hsave) as (w' & Hrun & Hcalls).
  exists w'. split; [exact Hrun |]. split; [exact Hcalls |].
  unfold finishRows. rewrite !List.map_map. cbn. repeat split.
  clear. induction messages; cbn; constructor; auto.
Qed.

(** The reconciler stores and streams the usage [reconciled] names. *)
Lemma usageOnFinish_stores s usage w :
  exists w',
    usageOnFinish s usage w = (w', Returned tt) /\
    finalMergedUsage w' = Some (reconciled s usage) /\
    dataStream w' = (dataStream w ++ [DataUsage (reconciled s usage)])%list /\
    db w' = db w /\ calls w' = calls w /\ clock w' = clock w.
Proof.
  unfold usageOnFinish, getTokenlensCatalog, reconciled. unfold_monad.
  explore; try (cbn in *; discriminate);
    eexists; cbn; repeat split; reflexivity.
Qed.

Lemma reconciled_keeps_raw_keys s usage : dom usage ⊆ dom (reconciled s usage).
Proof.
  unfold reconciled. explore; try reflexivity.
  rewrite dom_insert, dom_union. set_solver.
Qed.

(** A stream that ran to its end.  With the embedding, the search and the
    provider answering, the generation finished with a usage and the save
    going through, draining the stream returns, whether or not the update
    goes through, and adds to the trace, after the embedding request,
    exactly two calls: the save of the rows of the messages assembled
    from the completed stream (the chunks of the completion followed by
    the usage chunk), and the update of the chat's last usage with the
    reconciled usage, which has every key of the raw one. *)
Theorem finished_stream_updates_usage s w w1 v perfumes model usage d w3 o :
  generateEmbedding (us_userMessageText s) w = (w1, Returned v) ->
  searchPerfumesByEmbedding v 5 (db w1) = Returned perfumes ->
  languageModel (us_selectedChatModel s) = Returned model ->
  snd (streamText model (systemPrompt perfumes) (us_userMessageText s)) = Some usage ->
  saveMessages
    (finishRows s (responseMessages (completedStream s model perfumes usage w1)) w1)
    (db w1) = (d, Returned tt) ->
  runStream s w = (w3, o) ->
  o = Returned tt /\
  calls w3
    = (calls w1 ++
       [CallSaveMessages
          (finishRows s (responseMessages (completedStream s model perfumes usage w1)) w1);
        CallUpdateChatLastContextById (us_chatId s) (reconciled s usage)])%list /\
  dom usage ⊆ dom (reconciled s usage).
Proof.
  intros Hemb Hsearch Hmodel Husage Hsave Hrun.
  assert (Hexec : exists w2,
            execute s w = (w2, Returned tt) /\
            finalMergedUsage w2 = Some (reconciled s usage) /\
            dataStream w2 = completedStream s model perfumes usage w1 /\
            db w2 = db w1 /\ calls w2 = calls w1 /\ clock w2 = clock w1).
  { unfold execute, completedStream.
    unfold tryCatch, mbind, M_bind, bind, settle, query.
    rewrite Hemb, Hsearch, Hmodel. cbn.
    destruct (streamText model (systemPrompt perfumes) (us_userMessageText s))
      as [chunks finished]. cbn in Husage. subst finished. cbn.
    rewrite writeAll_run.
    destruct (usageOnFinish_stores s usage (withChunks chunks w1))
      as (w2 & Hfinish & Hstored & Hstream & Hdb & Hcalls & Hclock).
    rewrite Hfinish. exists w2. split; [reflexivity |].
    split; [exact Hstored |]. split; [| repeat split; assumption].
    rewrite Hstream. cbn. rewrite <- app_assoc. reflexivity. }
  destruct Hexec as (w2 & Hexec & Hstored & Hstream & Hdb & Hcalls & Hclock).
  unfold runStream in Hrun. unfold mbind, M_bind, bind in Hrun.
  rewrite Hexec in Hrun. unfold readWorld in Hrun. cbn in Hrun.
  assert (Hrows : finishRows s (responseMessages (dataStream w2)) w2
                  = finishRows s (responseMessages
                                    (completedStream s model perfumes usage w1)) w1).
  { unfold finishRows. rewrite Hstream, Hclock. reflexivity. }
  rewrite <- Hrows, <- Hdb in Hsave.
  destruct (streamOnFinish_calls s _ w2 d Hsave) as (w' & Hfinish & Hadded).
  rewrite Hfinish in Hrun. injection Hrun as <- <-.
  split; [reflexivity |]. split; [| apply reconciled_keeps_raw_keys].
  rewrite Hadded, Hstored, Hcalls, Hrows. reflexivity.
Qed.

Lemma POST_stream_resets_usage request w w' body :
  POST request w = (w', Returned (StreamResponse body)) ->
  finalMergedUsage w' = None /\ dataStream w' = dataStream w.
Proof.
  unfold POST, appendAndStream. unfold_monad.
  explore; intros Hrun; try discriminate Hrun;
    injection Hrun as <- _; split; reflexivity.
Qed.

(** A request whose embedding or search fails never updates the last
    usage of its chat: draining the stream POST answered with adds, after
    the fetches of the embedding client, the one save of the messages
    assembled from the stream, and nothing else. *)
Theorem failed_search_never_updates_usage request w0 w s w2 o :
  POST request w0 = (w, Returned (StreamResponse (PlainStream s))) ->
  (exists w1 e, generateEmbedding (us_userMessageText s) w = (w1, Thrown e)) \/
  (exists w1 v e, generateEmbedding (us_userMessageText s) w = (w1, Returned v) /\
                  searchPerfumesByEmbedding v 5 (db w1) = Thrown e) ->
  runStream s w = (w2, o) ->
  exists fetched rows,
    calls w2 = (calls w ++ fetched ++ [CallSaveMessages rows])%list /\
    Forall isFetchCall fetched /\
    rows = finishRows s
             (responseMessages
                (dataStream w0 ++ [TextDelta apology (generateUUID (uuidsDrawn w)); Finish]))
             w.
Proof.
  intros Hpost Hfails Hrun.
  destruct (POST_stream_resets_usage _ _ _ _ Hpost) as [Hreset Hstream0].
  assert (Hexec : exists w1 e,
            execute s w = (reported e (generateUUID (uuidsDrawn w1)) w1, Returned tt) /\
            (w1 = w \/ exists key,
                w1 = withCall (CallFetch (embeddingsRequest key (us_userMessageText s))) w)).
  { destruct Hfails as [(w1 & e & Hemb) | (w1 & v & e & Hemb & Hsearch)];
      exists w1, e; split;
      try exact (generateEmbedding_world _ _ _ _ Hemb).
    - exact (execute_embedding_failure s w w1 e Hemb).
    - exact (execute_search_failure s w w1 v e Hemb Hsearch). }
  destruct Hexec as (w1 & e & Hexec & Hw1).
  unfold runStream in Hrun. unfold mbind, M_bind, bind in Hrun.
  rewrite Hexec in Hrun. unfold readWorld in Hrun. cbn in Hrun.
  unfold streamOnFinish in Hrun. unfold_monad. cbn in Hrun.
  assert (Hsame : finalMergedUsage w1 = None /\ clock w1 = clock w /\
                  uuidsDrawn w1 = uuidsDrawn w /\ dataStream w1 = dataStream w0 /\
                  exists fetched, calls w1 = (calls w ++ fetched)%list /\
                                  Forall isFetchCall fetched).
  { destruct Hw1 as [-> | [key ->]]; cbn; repeat split; try assumption.
    - exists []. split; [now rewrite app_nil_r | constructor].
    - eexists. split; [reflexivity |]. repeat constructor. }
  destruct Hsame as (Husage & Hclock & Huuid & Hdata & fetched & Hcalls & Hfetched).
  rewrite Husage, Hclock, Huuid, Hdata, Hcalls in Hrun.
  exists fetched. eexists. split; [| split; [exact Hfetched | reflexivity]].
  unfold finishRows. rewrite <- !app_assoc in Hrun. cbn in Hrun.
  destruct (saveMessages _ (db w1)) as [d [[] | e']]; cbn in Hrun;
    injection Hrun as <- _; cbn; rewrite <- ?app_assoc; reflexivity.
Qed.

End StreamEnd.

(** ** More on the prompt *)

Section PromptEdges.

(** A row none of whose optional attributes passes the truth test renders
    as its name line alone; a number of reviews does not show without a
    rating. *)
Theorem name_line_alone (p : Perfume) :
  onlyNamed p = true ->
  renderPerfume p = "**" +:+ toString (perfume_name p) +:+ "**" +:+ nl.
Proof.
  unfold onlyNamed. rewrite negb_true_iff, !orb_false_iff.
  intros [[[[[[[[[[[[Hbrand Hdesc] Hrat] Hnotes] Hseason] Hgender] Hlong]
    Hsill] Htime] Hvalue] Hpros] Hcons] Hsim].
  unfold renderPerfume, whenTruthy.
  rewrite Hbrand, Hdesc, Hrat, Hnotes, Hseason, Hgender, Hlong, Hsill, Htime,
    Hvalue, Hpros, Hcons, Hsim.
  rewrite !append_assoc. do 3 f_equal.
Qed.

Lemma append_cancel (prefix a b : string) :
  prefix +:+ a = prefix +:+ b -> a = b.
Proof.
  induction prefix as [| c prefix IH]; cbn; [trivial |].
  intros [= Heq]. exact (IH Heq).
Qed.

(** The prompt of an empty result is the prompt of no other result: any
    row found replaces the fallback sentence by the block of rows. *)
Theorem fallback_prompt_only_for_no_rows (perfumes : list Perfume) :
  systemPrompt perfumes = systemPrompt [] <-> perfumes = [].
Proof.
  split; [| intros ->; reflexivity].
  destruct perfumes as [| p ps]; [reflexivity |].
  unfold systemPrompt. cbn [length Nat.ltb Nat.leb].
  intros Heq. apply append_cancel in Heq.
  unfold foundIntro, fallbackSentence in Heq. cbn in Heq. discriminate Heq.
Qed.

End PromptEdges.

(** ** More runs on the scripted scenarios *)

Section MoreRuns.
Import Memory Scenarios MoreScenarios.

Lemma post_malformed_body_witness :
  @POST _ (scripted (withAuth (Thrown sessionExpired))) noIdRequest world0
    = (world0, Returned (ErrorResponse "bad_request:api")).
Proof.
  apply (@post_malformed_body_is_bad_request Store
           (scripted (withAuth (Thrown sessionExpired))) noIdRequest world0).
  reflexivity.
Defined.

Lemma post_maps_thrown_errors_witness :
  @POST _ (scripted (withAuth (Thrown sessionExpired))) (postTo "chat-alice") world0
    = (world0, Returned (ErrorResponse "unauthorized:auth")).
Proof.
  apply (@post_maps_thrown_errors Store
           (scripted (withAuth (Thrown sessionExpired)))
           (postTo "chat-alice") (bodyFor "chat-alice") world0 sessionExpired).
  - reflexivity.
  - left. reflexivity.
Defined.

(** Anything that is not an application error comes out as offline. *)
Example post_unknown_error_is_offline :
  snd (@POST _ (scripted (withAuth (Thrown fetchFailed))) (postTo "chat-alice") world0)
    = Returned (ErrorResponse "offline:chat") /\
  console (fst (@POST _ (scripted (withAuth (Thrown fetchFailed)))
                  (postTo "chat-alice") world0))
    = [mkLogLine "error" "Unhandled error in chat API:" (Some fetchFailed)].
Proof. split; vm_compute; reflexivity. Qed.

Lemma post_new_conversation_witness :
  exists w',
    @POST _ (scripted sunny) (postTo "chat-new") world0
      = (w', Returned (StreamResponse
                         (PlainStream (@streamOf _ (scripted sunny) (bodyFor "chat-new"))))) /\
    db w' = fst (@createStreamId _ (scripted sunny) "uuid-0" "chat-new"
                   (fst (@saveMessages _ (scripted sunny)
                           [userRow (bodyFor "chat-new") 1700000000]
                           (fst (@saveChat _ (scripted sunny)
                                   (newChat (bodyFor "chat-new") aliceUser "Nowa rozmowa")
                                   store0))))) /\
    storeWrites (calls w')
      = (storeWrites (calls world0) ++
         [CallSaveChat (newChat (bodyFor "chat-new") aliceUser "Nowa rozmowa");
          CallSaveMessages [userRow (bodyFor "chat-new") (clock world0)];
          CallCreateStreamId (@generateUUID _ (scripted sunny) (uuidsDrawn world0))
                             (body_id (bodyFor "chat-new"))])%list /\
    finalMergedUsage w' = None /\
    console w' = console world0.
Proof.
  apply (@post_new_conversation Store (scripted sunny) (postTo "chat-new")
           (bodyFor "chat-new") world0 aliceSession aliceUser 2 "Nowa rozmowa"
           (fst (@saveChat _ (scripted sunny)
                   (newChat (bodyFor "chat-new") aliceUser "Nowa rozmowa") store0))
           (fst (@saveMessages _ (scripted sunny)
                   [userRow (bodyFor "chat-new") 1700000000]
                   (fst (@saveChat _ (scripted sunny)
                           (newChat (bodyFor "chat-new") aliceUser "Nowa rozmowa")
                           store0)))));
    try reflexivity.
  vm_compute. discriminate.
Defined.

Lemma post_existing_conversation_witness :
  exists w',
    @POST _ (scripted sunny) (postTo "chat-alice") world0
      = (w', Returned (StreamResponse
                         (PlainStream (@streamOf _ (scripted sunny) (bodyFor "chat-alice"))))) /\
    db w' = fst (@createStreamId _ (scripted sunny) "uuid-0" "chat-alice"
                   (fst (@saveMessages _ (scripted sunny)
                           [userRow (bodyFor "chat-alice") 1700000000] store0))) /\
    storeWrites (calls w')
      = (storeWrites (calls world0) ++
         [CallSaveMessages [userRow (bodyFor "chat-alice") (clock world0)];
          CallCreateStreamId (@generateUUID _ (scripted sunny) (uuidsDrawn world0))
                             (body_id (bodyFor "chat-alice"))])%list /\
    finalMergedUsage w' = None.
Proof.
  apply (@post_existing_conversation Store (scripted sunny) (postTo "chat-alice")
           (bodyFor "chat-alice") world0 aliceSession aliceUser 2 alicesChat
           [userMessage "m1" "chat-alice"; userMessage "m2" "chat-alice"]
           (fst (@saveMessages _ (scripted sunny)
                   [userRow (bodyFor "chat-alice") 1700000000] store0)));
    try reflexivity.
  vm_compute. discriminate.
Defined.

Lemma post_failed_save_witness :
  exists w',
    @POST _ (scripted saveFails) (postTo "chat-new") world0
      = (w', Returned (ErrorResponse (codeOf databaseError))) /\
    db w' = fst (@saveChat _ (scripted saveFails)
                   (newChat (bodyFor "chat-new") aliceUser "Nowa rozmowa") store0) /\
    calls w'
      = (calls world0 ++
         [CallSaveChat (newChat (bodyFor "chat-new") aliceUser "Nowa rozmowa");
          CallSaveMessages [userRow (bodyFor "chat-new") (clock world0)]])%list.
Proof.
  apply (@post_failed_save_keeps_new_chat Store (scripted saveFails) (postTo "chat-new")
           (bodyFor "chat-new") world0 aliceSession aliceUser 2 "Nowa rozmowa"
           (fst (@saveChat _ (scripted saveFails)
                   (newChat (bodyFor "chat-new") aliceUser "Nowa rozmowa") store0)));
    try reflexivity.
  vm_compute. discriminate.
Defined.

(** The chat row of that failed request is in the store. *)
Example failed_save_leaves_the_chat :
  List.map chat_id
    (chats (db (fst (@POST _ (scripted saveFails) (postTo "chat-new") world0))))
  = ["chat-bob"; "chat-alice"; "chat-new"].
Proof. vm_compute. reflexivity. Qed.

Lemma post_writes_witness :
  exists added,
    calls (fst (@POST _ (scripted sunny) (postTo "chat-new") world0))
      = (calls world0 ++ added)%list /\
    Forall (postWrite (bodyFor "chat-new")) (storeWrites added) /\
    (length (storeWrites added) <= 3)%nat /\
    forall ch,
      In (CallSaveChat ch) added ->
      exists session user,
        @auth _ (scripted sunny) = Returned (Some session) /\
        session_user session = Some user /\
        chat_userId ch = user_id user /\
        @getChatById _ (scripted sunny) (body_id (bodyFor "chat-new")) (db world0)
          = Returned None.
Proof.
  apply (@post_writes_only_for_its_chat Store (scripted sunny) (postTo "chat-new")
           (bodyFor "chat-new") world0
           (fst (@POST _ (scripted sunny) (postTo "chat-new") world0))
           (snd (@POST _ (scripted sunny) (postTo "chat-new") world0)));
    vm_compute; reflexivity.
Defined.

End MoreRuns.

Section HandlerRuns.
Import Memory Scenarios MoreScenarios.

Lemma delete_rejects_witness :
  @DELETE _ (scripted sunny) noIdRequest world0
    = (world0, Returned (ErrorResponse "bad_request:api")) /\
  @DELETE _ (scripted signedOut) (deleteOf "chat-alice") world0
    = (world0, Returned (ErrorResponse "unauthorized:chat")).
Proof.
  split.
  - apply (proj1 (@delete_rejects_before_store Store (scripted sunny)
                    noIdRequest world0)).
    left. reflexivity.
  - apply (proj2 (@delete_rejects_before_store Store (scripted signedOut)
                    (deleteOf "chat-alice") world0) "chat-alice" None);
      try reflexivity.
    discriminate.
Defined.

Lemma delete_own_conversation_witness :
  exists w',
    @DELETE _ (scripted sunny) (deleteOf "chat-alice") world0
      = (w', Returned (JsonResponse 200 alicesChat)) /\
    db w' = fst (@deleteChatById _ (scripted sunny) "chat-alice" store0) /\
    calls w' = (calls world0 ++ [CallDeleteChatById "chat-alice"])%list.
Proof.
  apply (@delete_own_conversation Store (scripted sunny) (deleteOf "chat-alice")
           "chat-alice" world0 aliceSession aliceUser alicesChat);
    try reflexivity.
  discriminate.
Defined.

(** The chat and its messages are gone, Bob's are still there. *)
Example delete_removes_chat_and_messages :
  List.map chat_id
    (chats (db (fst (@DELETE _ (scripted sunny) (deleteOf "chat-alice") world0))))
    = ["chat-bob"] /\
  List.map db_id
    (messages (db (fst (@DELETE _ (scripted sunny) (deleteOf "chat-alice") world0))))
    = ["m3"].
Proof. split; vm_compute; reflexivity. Qed.

Lemma delete_propagates_witness :
  exists w',
    @DELETE _ (scripted (withAuth (Thrown sessionExpired))) (deleteOf "chat-alice") world0
      = (w', Thrown sessionExpired).
Proof.
  apply (@delete_propagates_throws Store (scripted (withAuth (Thrown sessionExpired)))
           (deleteOf "chat-alice") "chat-alice" world0 sessionExpired).
  - reflexivity.
  - discriminate.
  - left. reflexivity.
Defined.

Lemma delete_touches_witness :
  fst (@DELETE _ (scripted sunny) (deleteOf "chat-bob") world0) = world0 \/
  exists id session user c,
    searchId (deleteOf "chat-bob") = Some id /\
    @auth _ (scripted sunny) = Returned (Some session) /\
    session_user session = Some user /\
    @getChatById _ (scripted sunny) id (db world0) = Returned (Some c) /\
    chat_userId c = user_id user /\
    calls (fst (@DELETE _ (scripted sunny) (deleteOf "chat-bob") world0))
      = (calls world0 ++ [CallDeleteChatById id])%list /\
    db (fst (@DELETE _ (scripted sunny) (deleteOf "chat-bob") world0))
      = fst (@deleteChatById _ (scripted sunny) id (db world0)).
Proof.
  apply (@delete_touches_only_own_chats Store (scripted sunny) (deleteOf "chat-bob")
           world0 _ (snd (@DELETE _ (scripted sunny) (deleteOf "chat-bob") world0))).
  vm_compute. reflexivity.
Defined.

Lemma stream_context_created_once_witness :
  @getStreamContext _ (scripted redisPresent) world0
    = (withContext (mkCtx "redis") world0, Returned (Some (mkCtx "redis"))) /\
  @getStreamContext _ (scripted redisPresent) (withContext (mkCtx "redis") world0)
    = (withContext (mkCtx "redis") world0, Returned (Some (mkCtx "redis"))).
Proof.
  apply (@stream_context_created_once Store (scripted redisPresent) world0
           (mkCtx "redis")); reflexivity.
Defined.

Lemma stream_context_failure_witness :
  @getStreamContext _ (scripted sunny) world0
    = (withLine (contextFailureLine "REDIS_URL environment variable is not set") world0,
       Returned None) /\
  @getStreamContext _ (scripted sunny)
      (withLine (contextFailureLine "REDIS_URL environment variable is not set") world0)
    = (withLine (contextFailureLine "REDIS_URL environment variable is not set")
         (withLine (contextFailureLine "REDIS_URL environment variable is not set") world0),
       Returned None).
Proof.
  apply (@stream_context_failure_is_not_cached Store (scripted sunny) world0
           "REDIS_URL environment variable is not set"); reflexivity.
Defined.

(** The line for a missing REDIS_URL is the information line. *)
Example missing_redis_url_line :
  contextFailureLine "REDIS_URL environment variable is not set"
    = mkLogLine "log" " > Resumable streams are disabled due to missing REDIS_URL" None /\
  contextFailureLine "connect ECONNREFUSED"
    = mkLogLine "error" "" (Some (Error "connect ECONNREFUSED")).
Proof. split; vm_compute; reflexivity. Qed.

Lemma catalog_fetch_witness :
  @getTokenlensCatalog _ (scripted sunny) world0
    = (world0, Returned (JObj [("providers", JArr [])])) /\
  @getTokenlensCatalog _ (scripted (withUsageTier (JStr "chat-model")
                                      (Thrown fetchFailed) (sc_getUsage sunny))) world0
    = (withLine (mkLogLine "warn"
                   "TokenLens: catalog fetch failed, using default catalog"
                   (Some fetchFailed)) world0,
       Returned JUndefined).
Proof.
  split.
  - apply (proj1 (@catalog_fetch_never_throws Store (scripted sunny) world0)).
    reflexivity.
  - apply (proj2 (@catalog_fetch_never_throws Store
                    (scripted (withUsageTier (JStr "chat-model")
                                 (Thrown fetchFailed) (sc_getUsage sunny))) world0)).
    reflexivity.
Defined.

End HandlerRuns.

Section StreamRuns.
Import Memory Scenarios MoreScenarios.

Lemma embedding_needs_api_key_witness :
  @generateEmbedding _ (scripted (withEnv (mkProcessEnv None None))) "Szukam perfum" world0
    = (world0, Thrown (Error ("Failed to generate embedding: " +:+
                              "OPENAI_API_KEY is not set"))).
Proof.
  apply (@embedding_needs_api_key Store (scripted (withEnv (mkProcessEnv None None)))
           "Szukam perfum" world0).
  left. reflexivity.
Defined.

Lemma embedding_returned_witness :
  @generateEmbedding _ (scripted (withFetch (Returned listResponse))) "Szukam perfum" world0
    = (withCall (CallFetch (embeddingsRequest "sk-test" "Szukam perfum")) world0,
       Returned (JArr [JNum 1; JNum 2])).
Proof.
  assert (Hkey : "sk-test" <> "") by discriminate.
  apply (@embedding_returned_from_first_entry Store
           (scripted (withFetch (Returned listResponse)))
           "Szukam perfum" world0 "sk-test" listResponse
           [("object", JStr "list")] [("model", JStr "text-embedding-3-small")]
           [("object", JStr "embedding"); ("index", JNum 0)] [] []
           (JArr [JNum 1; JNum 2]) eq_refl Hkey eq_refl eq_refl eq_refl).
  - repeat constructor; cbn; discriminate.
  - repeat constructor; cbn; discriminate.
  - reflexivity.
Defined.

Lemma embedding_transport_witness :
  @generateEmbedding _ (scripted (withFetch (Thrown fetchFailed))) "Szukam perfum" world0
    = (withCall (CallFetch (embeddingsRequest "sk-test" "Szukam perfum")) world0,
       Thrown (Error ("Failed to generate embedding: " +:+ exnMessage fetchFailed))).
Proof.
  assert (Hkey : "sk-test" <> "") by discriminate.
  apply (proj1 (@embedding_transport_failures_wrapped Store
                  (scripted (withFetch (Thrown fetchFailed)))
                  "Szukam perfum" world0 "sk-test" eq_refl Hkey)).
  reflexivity.
Defined.

Lemma enriched_usage_witness :
  exists w' (merged : Usage),
    @usageOnFinish _ (scripted sunny) aliceStream rawUsage world0 = (w', Returned tt) /\
    finalMergedUsage w' = Some merged /\
    merged !! "modelId" = Some (JStr "chat-model") /\
    merged !! "costUSD" = Some (JNum 1) /\
    merged !! "inputTokens" = Some (JNum 120).
Proof.
  destruct (@enriched_usage_reads_as_the_spread Store (scripted sunny)
              aliceStream rawUsage world0 (mkLanguageModel (JStr "chat-model"))
              (JObj [("providers", JArr [])]) (<["costUSD" := JNum 1]> ∅)
              eq_refl eq_refl eq_refl eq_refl eq_refl)
    as (w' & merged & Hrun & Hstored & _ & _ & Hid & Hkeys).
  exists w', merged. split; [exact Hrun |]. split; [exact Hstored |].
  split; [exact Hid |]. split.
  - rewrite (Hkeys "costUSD"); [reflexivity | discriminate].
  - rewrite (Hkeys "inputTokens"); [reflexivity | discriminate].
Defined.

Lemma execute_relays_witness :
  exists w2,
    @execute _ (scripted sunny) aliceStream worldAfterPost = (w2, Returned tt) /\
    exists merged : Usage,
      dataStream w2 = [ModelChunk (JStr "Polecam"); DataUsage merged] /\
      finalMergedUsage w2 = Some merged.
Proof.
  destruct (@execute_relays_the_completion Store (scripted sunny) aliceStream
              worldAfterPost
              (withCall (CallFetch (embeddingsRequest "sk-test" "Coś świeżego?"))
                        worldAfterPost)
              (JArr [JNum 1; JNum 2]) [] (mkLanguageModel (JStr "chat-model"))
              eq_refl eq_refl eq_refl)
    as (w2 & Hrun & _ & _ & Hstream).
  exists w2. split; [exact Hrun |].
  cbn in Hstream. destruct Hstream as (merged & Hchunks & Hstored & _).
  exists merged. split; [exact Hchunks | exact Hstored].
Defined.

Lemma stream_finish_witness :
  exists w',
    @streamOnFinish _ (scripted sunny) aliceStream [assistantMessage] worldWithUsage
      = (w', Returned tt) /\
    calls w'
      = [CallSaveMessages (finishRows aliceStream [assistantMessage] worldWithUsage);
         CallUpdateChatLastContextById "chat-alice" rawUsage].
Proof.
  destruct (@stream_finish_saves_then_updates Store (scripted sunny) aliceStream
              [assistantMessage] worldWithUsage
              (fst (@saveMessages _ (scripted sunny)
                      (finishRows aliceStream [assistantMessage] worldWithUsage) store0))
              eq_refl)
    as (w' & Hrun & Hcalls & _).
  exists w'. split; [exact Hrun | exact Hcalls].
Defined.

Lemma failed_search_witness :
  exists fetched rows,
    calls (fst (@runStream _ (scripted searchDown) aliceStream
                  (fst (@POST _ (scripted searchDown) (postTo "chat-alice") world0))))
      = (calls (fst (@POST _ (scripted searchDown) (postTo "chat-alice") world0))
         ++ fetched ++ [CallSaveMessages rows])%list /\
    Forall isFetchCall fetched /\
    rows = finishRows aliceStream
             (@responseMessages _ (scripted searchDown)
                (dataStream world0 ++
                 [TextDelta apology
                    (@generateUUID _ (scripted searchDown)
                       (uuidsDrawn (fst (@POST _ (scripted searchDown)
                                           (postTo "chat-alice") world0))));
                  Finish]))
             (fst (@POST _ (scripted searchDown) (postTo "chat-alice") world0)).
Proof.
  apply (@failed_search_never_updates_usage Store (scripted searchDown)
           (postTo "chat-alice") world0
           (fst (@POST _ (scripted searchDown) (postTo "chat-alice") world0))
           aliceStream
           (fst (@runStream _ (scripted searchDown) aliceStream
                   (fst (@POST _ (scripted searchDown) (postTo "chat-alice") world0))))
           (snd (@runStream _ (scripted searchDown) aliceStream
                   (fst (@POST _ (scripted searchDown) (postTo "chat-alice") world0))))).
  - vm_compute. reflexivity.
  - right. eexists _, _, _. split; vm_compute; reflexivity.
  - vm_compute. reflexivity.
Defined.

Lemma name_line_alone_witness :
  renderPerfume countedUnrated = "**" +:+ "Sauvage" +:+ "**" +:+ nl.
Proof.
  apply (name_line_alone countedUnrated). reflexivity.
Defined.

End StreamRuns.

Section FinishedRuns.
Import Memory Scenarios MoreScenarios.

Lemma finished_stream_witness :
  snd (@runStream _ (scripted sunny) aliceStream worldAfterPost) = Returned tt /\
  calls (fst (@runStream _ (scripted sunny) aliceStream worldAfterPost))
    = (calls (withCall (CallFetch (embeddingsRequest "sk-test" "Coś świeżego?"))
                       worldAfterPost)
       ++ [CallSaveMessages
             (finishRows aliceStream
                (@responseMessages _ (scripted sunny)
                   (@completedStream _ (scripted sunny) aliceStream
                      (mkLanguageModel (JStr "chat-model")) [] rawUsage
                      (withCall (CallFetch (embeddingsRequest "sk-test" "Coś świeżego?"))
                                worldAfterPost)))
                (withCall (CallFetch (embeddingsRequest "sk-test" "Coś świeżego?"))
                          worldAfterPost));
           CallUpdateChatLastContextById (us_chatId aliceStream)
             (@reconciled _ (scripted sunny) aliceStream rawUsage)])%list /\
  dom rawUsage ⊆ dom (@reconciled _ (scripted sunny) aliceStream rawUsage).
Proof.
  apply (@finished_stream_updates_usage Store (scripted sunny) aliceStream
           worldAfterPost
           (withCall (CallFetch (embeddingsRequest "sk-test" "Coś świeżego?"))
                     worldAfterPost)
           (JArr [JNum 1; JNum 2]) [] (mkLanguageModel (JStr "chat-model")) rawUsage
           (fst (@saveMessages _ (scripted sunny)
                   (finishRows aliceStream
                      (@responseMessages _ (scripted sunny)
                         (@completedStream _ (scripted sunny) aliceStream
                            (mkLanguageModel (JStr "chat-model")) [] rawUsage
                            (withCall (CallFetch (embeddingsRequest "sk-test" "Coś świeżego?"))
                                      worldAfterPost)))
                      (withCall (CallFetch (embeddingsRequest "sk-test" "Coś świeżego?"))
                                worldAfterPost))
                   store0))
           (fst (@runStream _ (scripted sunny) aliceStream worldAfterPost))
           (snd (@runStream _ (scripted sunny) aliceStream worldAfterPost)));
    reflexivity.
Defined.

(** The one assistant row of that run, and the keys of the usage stored. *)
Example finished_stream_rows :
  savedRows (calls (fst (@runStream _ (scripted sunny) aliceStream worldAfterPost)))
    = [mkDBMessage "chat-alice" "assistant-1" "assistant" [] [] 1700000000] /\
  @reconciled _ (scripted sunny) aliceStream rawUsage !! "costUSD" = Some (JNum 1) /\
  @reconciled _ (scripted sunny) aliceStream rawUsage !! "inputTokens" = Some (JNum 120).
Proof. repeat split; vm_compute; reflexivity. Qed.

End FinishedRuns.
